(** * TeachMate grading backend: the plagiarism pass of [assignment_grade.py]

    A shallow embedding of [calculate_text_similarity], [check_web_sources],
    [check_academic_sources] and [check_plagiarism], with the pydantic models
    of [states.py] they work on.

    Modelling conventions.
    - Python [float] values are exact rationals ([Q]); [round(x, 2)] is
      rounding to the nearest hundredth, ties to the even hundredth. The
      score read from the answer of the language model is the exception:
      it may also be [nan] or an infinity ([pyfloat]).
    - Python [str] is [string]; [lower()] and [split()] are those of the
      ASCII range (characters above 127 are kept as they are and are not
      white space).
    - A Python [set] of words is a [gset string].
    - A [dict] whose iteration order matters is an association list in
      insertion order with distinct keys.
    - Exceptions are the [Raised] results of [outcome]; a function whose
      calls can raise or log lives in the monad [M]. *)

From Stdlib Require Import Ascii String QArith Qround Qminmax Lqa.
From stdpp Require Import gmap strings list pretty.

#[local] Set Warnings "-clear-no-such-hyp".

Open Scope string_scope.

(** ** Exceptions and results *)

Inductive exn : Type :=
  | AttributeError
  | KeyError
  | ZeroDivisionError
  | RequestException.

Inductive outcome (A : Type) : Type :=
  | Ok (a : A)
  | Raised (e : exn).
Arguments Ok {A} a.
Arguments Raised {A} e.

(** ** Python strings: [lower], [split], truthiness *)

Definition is_upper (c : ascii) : bool :=
  let n := nat_of_ascii c in (65 <=? n)%nat && (n <=? 90)%nat.

Definition lower_char (c : ascii) : ascii :=
  if is_upper c then ascii_of_nat (nat_of_ascii c + 32) else c.

Fixpoint lower (s : string) : string :=
  match s with
  | EmptyString => EmptyString
  | String c s' => String (lower_char c) (lower s')
  end.

(** White space of [str.split()]: tab, line feed, vertical tab, form feed,
    carriage return, the four separators 28..31 and the blank. *)
Definition is_whitespace (c : ascii) : bool :=
  let n := nat_of_ascii c in
  ((9 <=? n)%nat && (n <=? 13)%nat) || ((28 <=? n)%nat && (n <=? 32)%nat).

(** [split_from cur s]: [cur] is the word being read, in reverse. *)
Definition flush (cur : list ascii) (rest : list string) : list string :=
  match cur with
  | [] => rest
  | _ => string_of_list_ascii (rev cur) :: rest
  end.

Fixpoint split_from (cur : list ascii) (s : string) : list string :=
  match s with
  | EmptyString => flush cur []
  | String c s' =>
      if is_whitespace c then flush cur (split_from [] s')
      else split_from (c :: cur) s'
  end.

Definition split (s : string) : list string := split_from [] s.

(** [not text] for an [Optional[str]]. *)
Definition falsy (t : option string) : bool :=
  match t with
  | None => true
  | Some EmptyString => true
  | Some _ => false
  end.

(** ** Floats *)

Definition float := Q.

Definition gt (a b : float) : bool := negb (Qle_bool a b).

(** [max(a, b)]: the first argument unless the second is larger. *)
Definition max2 (a b : float) : float := if gt b a then b else a.

(** [max([x] + l)], scanning from the left as [max] does. *)
Fixpoint max_from (best : float) (l : list float) : float :=
  match l with
  | [] => best
  | x :: l' => max_from (if gt x best then x else best) l'
  end.

Definition round_half_even (q : Q) : Z :=
  let f := Qfloor q in
  let r := (q - inject_Z f)%Q in
  match (r ?= 1 # 2)%Q with
  | Lt => f
  | Gt => (f + 1)%Z
  | Eq => if Z.even f then f else (f + 1)%Z
  end.

(** [round(x, 2)] *)
Definition round2 (x : float) : float :=
  (round_half_even (x * 100) # 100)%Q.

(** [a / b] on two [int]s. *)
Definition truediv (a b : nat) : outcome float :=
  match b with
  | O => Raised ZeroDivisionError
  | S _ => Ok (Z.of_nat a # Pos.of_nat b)%Q
  end.

(** ** [calculate_text_similarity] *)

(** [set(text.lower().split())]; [text] may be [None] at run time, and
    [None.lower()] raises. *)
Definition word_set (t : string) : gset string :=
  list_to_set (split (lower t)).

Definition words (text : option string) : outcome (gset string) :=
  match text with
  | None => Raised AttributeError
  | Some t => Ok (word_set t)
  end.

Definition calculate_text_similarity (text1 text2 : option string)
  : outcome float :=
  match words text1 with
  | Raised e => Raised e
  | Ok words1 =>
      match words text2 with
      | Raised e => Raised e
      | Ok words2 =>
          let intersection := words1 ∩ words2 in
          let union := words1 ∪ words2 in
          if (size union =? 0)%nat then Ok 0%Q
          else truediv (size intersection) (size union)
      end
  end.

(** ** The pydantic models of [states.py] *)

Module RubricGrade.
Record t : Type := mk { total_score : float; reason : string }.
Arguments mk _%_Q _%_string.
End RubricGrade.

Module SourceMatch.
Record t : Type := mk {
  url : string;
  title : option string;
  similarity : float;
  snippet : option string
}.
End SourceMatch.

Module Submissions.
Record t : Type := mk {
  submission_id : string;
  file_url : option string;
  file_content : option string;
  plagerism_score : option float;
  total_score : option RubricGrade.t;
  web_sources : option (list SourceMatch.t);
  academic_sources : option (list SourceMatch.t)
}.
End Submissions.

(** [AssignmentGrade] is a [TypedDict] with [total=False]: a key may be
    missing, and reading it then raises [KeyError]. *)
Module AssignmentGrade.
Record t : Type := mk {
  assignment_id : option string;
  submission_ids : option (list Submissions.t)
}.
End AssignmentGrade.

Definition getitem {A} (field : option A) : outcome A :=
  match field with
  | Some a => Ok a
  | None => Raised KeyError
  end.

(** ** Results and exceptions as a monad *)

#[export] Instance outcome_ret : MRet outcome := λ A a, Ok a.
#[export] Instance outcome_bind : MBind outcome := λ A B f m,
  match m with
  | Ok a => f a
  | Raised e => Raised e
  end.

(** ** The outside world of the two source checks *)

(** One entry of SerpAPI's [organic_results]; a missing key reads as the
    empty string ([result.get(key, "")]). *)
Record serp_result : Type := {
  link : string;
  serp_title : string;
  serp_snippet : string
}.

Record serp_response : Type := {
  serp_status_code : nat;
  organic_results : option (list serp_result)
}.

(** One anchor of DuckDuckGo's result page: [href] and [get_text()]. *)
Record ddg_result : Type := {
  href : string;
  link_text : string
}.

(** [ddg_results] is [Raised] when BeautifulSoup is missing or fails. *)
Record ddg_response : Type := {
  ddg_status_code : nat;
  ddg_results : outcome (list ddg_result)
}.

(** A document of the Qdrant collection. *)
Record document : Type := {
  metadata : gmap string string;
  page_content : string
}.

(** The request sent for a submission is a function of its text, so the
    oracles are indexed by the text. *)
Record world : Type := {
  serpapi_key : option string;
  serpapi : string → outcome serp_response;
  duckduckgo : string → outcome ddg_response;
  qdrant_configured : bool;
  similarity_search : string → nat → outcome (list document)
}.

(** [s[:n]] *)
Definition prefix (n : nat) (s : string) : string := substring 0 n s.

Definition truthy (s : string) : bool := negb (falsy (Some s)).

(** The body of the loop over SerpAPI's results. *)
Fixpoint serp_matches (text : string) (results : list serp_result)
  : outcome (list SourceMatch.t) :=
  match results with
  | [] => Ok []
  | result :: rest =>
      let url := link result in
      let title := serp_title result in
      let snippet := serp_snippet result in
      if truthy url then
        let combined_text := lower (title ++ " " ++ snippet) in
        similarity ← calculate_text_similarity (Some (lower text))
                                               (Some combined_text);
        tail ← serp_matches text rest;
        if gt similarity (1 # 10)%Q then
          Ok (SourceMatch.mk url (Some title) (round2 (similarity * 100)%Q)
                (Some (if truthy snippet then prefix 200 snippet
                       else prefix 200 title)) :: tail)
        else Ok tail
      else serp_matches text rest
  end.

(** The body of the loop over DuckDuckGo's results. *)
Fixpoint ddg_matches (text : string) (results : list ddg_result)
  : outcome (list SourceMatch.t) :=
  match results with
  | [] => Ok []
  | result :: rest =>
      let url := href result in
      let title := link_text result in
      if truthy url && truthy title then
        similarity ← calculate_text_similarity (Some (lower text))
                                               (Some (lower title));
        tail ← ddg_matches text rest;
        if gt similarity (1 # 10)%Q then
          Ok (SourceMatch.mk url (Some title) (round2 (similarity * 100)%Q)
                (Some (prefix 200 title)) :: tail)
        else Ok tail
      else ddg_matches text rest
  end.

(** The DuckDuckGo fall-back of [check_web_sources]: every failure is an
    empty list. *)
Definition ddg_sources (w : world) (text : string) (max_results : nat)
  : list SourceMatch.t :=
  match duckduckgo w text with
  | Raised _ => []
  | Ok response =>
      if (ddg_status_code response =? 200)%nat then
        match ddg_results response with
        | Raised _ => []
        | Ok results =>
            match ddg_matches text (take max_results results) with
            | Raised _ => []
            | Ok web_sources => take max_results web_sources
            end
        end
      else []
  end.

(** The SerpAPI attempt: [Some l] when it returns [l], [None] when control
    falls through to DuckDuckGo (no key, a failed request, a status other
    than 200). *)
Definition serp_sources (w : world) (text : string) (max_results : nat)
  : option (list SourceMatch.t) :=
  match serpapi_key w with
  | None => None
  | Some key =>
      if truthy key then
        match serpapi w text with
        | Raised _ => None
        | Ok response =>
            if (serp_status_code response =? 200)%nat then
              match organic_results response with
              | None => Some []
              | Some results =>
                  match serp_matches text (take max_results results) with
                  | Raised _ => None
                  | Ok web_sources => Some web_sources
                  end
              end
            else None
        end
      else None
  end.

Definition check_web_sources (w : world) (text : string) (max_results : nat)
  : outcome (list SourceMatch.t) :=
  match serp_sources w text max_results with
  | Some web_sources => Ok web_sources
  | None => Ok (ddg_sources w text max_results)
  end.

(** The body of the loop over the documents found in Qdrant. *)
Fixpoint academic_matches (text : string) (results : list document)
  : outcome (list SourceMatch.t) :=
  match results with
  | [] => Ok []
  | doc :: rest =>
      let md := metadata doc in
      let source_url :=
        default (default "knowledge_base" (md !! "url")) (md !! "source") in
      let title := default "Academic Source" (md !! "title") in
      similarity ← calculate_text_similarity (Some (lower text))
                                             (Some (lower (page_content doc)));
      tail ← academic_matches text rest;
      if gt similarity (1 # 10)%Q then
        Ok (SourceMatch.mk source_url (Some title) (round2 (similarity * 100)%Q)
              (Some (prefix 200 (page_content doc))) :: tail)
      else Ok tail
  end.

Definition check_academic_sources (w : world) (text : string)
    (max_results : nat) : outcome (list SourceMatch.t) :=
  if qdrant_configured w then
    match similarity_search w text max_results with
    | Raised _ => Ok []
    | Ok results =>
        match academic_matches text results with
        | Raised _ => Ok []
        | Ok academic_sources => Ok academic_sources
        end
    end
  else Ok [].

(** ** The monad of [check_plagiarism]: exceptions and a log of calls *)

Inductive event : Type :=
  | Compared (current_id other_id : string)
  | WebLookup (text : string)
  | AcademicLookup (text : string).

Definition M (A : Type) : Type := list event → outcome A * list event.

#[export] Instance M_ret : MRet M := λ A a log, (Ok a, log).
#[export] Instance M_bind : MBind M := λ A B f m log,
  match m log with
  | (Ok a, log') => f a log'
  | (Raised e, log') => (Raised e, log')
  end.

Definition lift {A} (o : outcome A) : M A := λ log, (o, log).
Definition tell (ev : event) : M unit := λ log, (Ok tt, (log ++ [ev])%list).

(** [try: body except Exception as e: handler] *)
Definition try_except {A} (body : M A) (handler : exn → M A) : M A :=
  λ log,
    match body log with
    | (Ok a, log') => (Ok a, log')
    | (Raised e, log') => handler e log'
    end.

(** ** Storage: the Supabase table and the file downloads *)

Module Row.
Record t : Type := mk { id : string; file_url : option string }.
End Row.

(** [supabase] is [None] when the client was not initialised; the query for
    an assignment's rows may raise. [http_get url] is [response.text], or
    the exception of the request or of [raise_for_status]. *)
Record storage : Type := {
  supabase : option (string → outcome (list Row.t));
  http_get : string → outcome string
}.

(** [d[k] = v] on a dict kept in insertion order. *)
Fixpoint dict_set (d : list (string * string)) (k v : string)
  : list (string * string) :=
  match d with
  | [] => [(k, v)]
  | (k', v') :: d' =>
      if String.eqb k' k then (k', v) :: d' else (k', v') :: dict_set d' k v
  end.

(** The download loop that fills [all_submission_contents]. *)
Fixpoint download_all (st : storage) (rows : list Row.t)
    (all_submission_contents : list (string * string))
  : list (string * string) :=
  match rows with
  | [] => all_submission_contents
  | sub :: rest =>
      let sub_id := Row.id sub in
      match Row.file_url sub with
      | None => download_all st rest all_submission_contents
      | Some file_url =>
          if truthy file_url then
            match http_get st file_url with
            | Ok text =>
                download_all st rest
                  (dict_set all_submission_contents sub_id text)
            | Raised _ => download_all st rest all_submission_contents
            end
          else download_all st rest all_submission_contents
      end
  end.

Definition PLAGIARISM_THRESHOLD : float := 40%Q.

(** [x if x else None] on a list. *)
Definition or_none {A} (l : list A) : option (list A) :=
  match l with
  | [] => None
  | _ => Some l
  end.

(** The update of the score by the sources of one check. *)
Definition raise_to_sources (plagiarism_percentage : float)
    (sources : list SourceMatch.t) : float :=
  match sources with
  | [] => plagiarism_percentage
  | s :: rest =>
      let max_source_similarity :=
        max_from (SourceMatch.similarity s) (map SourceMatch.similarity rest) in
      if gt max_source_similarity plagiarism_percentage
      then max_source_similarity
      else plagiarism_percentage
  end.

Section Evaluator.

(** [str()] of a float inside an f-string. *)
Variable str_float : float → string.

(** The two source checks the evaluator calls; [check_web_sources] and
    [check_academic_sources] below are the ones of the module. *)
Variable web_check academic_check : string → nat → outcome (list SourceMatch.t).

(** The submission returned when no comparison is made. *)
Definition without_plagiarism (sub : Submissions.t) : Submissions.t :=
  Submissions.mk (Submissions.submission_id sub) (Submissions.file_url sub)
    (Submissions.file_content sub) (Some 0%Q) (Submissions.total_score sub)
    None None.

(** The loop over [all_submission_contents.items()]. *)
Fixpoint compare_all (current_id current_content : string)
    (items : list (string * string)) (max_similarity : float) : M float :=
  match items with
  | [] => mret max_similarity
  | (other_sub_id, other_content) :: rest =>
      if String.eqb other_sub_id current_id then
        compare_all current_id current_content rest max_similarity
      else if negb (truthy other_content) then
        compare_all current_id current_content rest max_similarity
      else
        tell (Compared current_id other_sub_id);;
        similarity ← lift (calculate_text_similarity (Some current_content)
                                                     (Some other_content));
        compare_all current_id current_content rest
          (max2 max_similarity similarity)
  end.

Definition override_reason (plagiarism_percentage : float)
    (original_score : string) : string :=
  "Grade set to 0 due to high plagiarism score ("
  ++ str_float plagiarism_percentage ++ "% similarity, threshold: "
  ++ str_float PLAGIARISM_THRESHOLD ++ "%). Original grade was "
  ++ original_score ++ ".".

Definition forced_reason (plagiarism_percentage : float) : string :=
  "Grade set to 0 due to high plagiarism score ("
  ++ str_float plagiarism_percentage ++ "% similarity, threshold: "
  ++ str_float PLAGIARISM_THRESHOLD ++ "%).".

(** The grade after the threshold test. *)
Definition apply_threshold (plagiarism_percentage : float)
    (current_grade : option RubricGrade.t) : option RubricGrade.t :=
  if gt plagiarism_percentage PLAGIARISM_THRESHOLD then
    let original_score :=
      match current_grade with
      | None => "N/A"
      | Some g => str_float (RubricGrade.total_score g)
      end in
    Some (RubricGrade.mk 0%Q
            (override_reason plagiarism_percentage original_score))
  else current_grade.

(** The final verification of the grade of the new submission object. *)
Definition verify_grade (plagiarism_percentage : float)
    (final_grade : option RubricGrade.t) : option RubricGrade.t :=
  match final_grade with
  | None => None
  | Some g =>
      if gt plagiarism_percentage PLAGIARISM_THRESHOLD
         && negb (Qeq_bool (RubricGrade.total_score g) 0%Q)
      then Some (RubricGrade.mk 0%Q (forced_reason plagiarism_percentage))
      else Some g
  end.

(** One turn of the loop over the submissions under evaluation. *)
Definition check_one (all_submission_contents : list (string * string))
    (current_submission : Submissions.t) : M Submissions.t :=
  match Submissions.file_content current_submission with
  | None => mret (without_plagiarism current_submission)
  | Some current_content =>
      if negb (truthy current_content) then
        mret (without_plagiarism current_submission)
      else
        max_similarity ←
          compare_all (Submissions.submission_id current_submission)
            current_content all_submission_contents 0%Q;
        let plagiarism_percentage := round2 (max_similarity * 100)%Q in
        tell (WebLookup current_content);;
        web_sources ←
          try_except (lift (web_check current_content 5%nat))
                     (λ _, mret []);
        tell (AcademicLookup current_content);;
        academic_sources ←
          try_except (lift (academic_check current_content 5%nat))
                     (λ _, mret []);
        let plagiarism_percentage :=
          raise_to_sources plagiarism_percentage web_sources in
        let plagiarism_percentage :=
          raise_to_sources plagiarism_percentage academic_sources in
        let current_grade :=
          apply_threshold plagiarism_percentage
            (Submissions.total_score current_submission) in
        mret (Submissions.mk
                (Submissions.submission_id current_submission)
                (Submissions.file_url current_submission)
                (Submissions.file_content current_submission)
                (Some plagiarism_percentage)
                (verify_grade plagiarism_percentage current_grade)
                (or_none web_sources)
                (or_none academic_sources))
  end.

(** The loop over the submissions, filling [updated_submissions]. *)
Fixpoint check_each (all_submission_contents : list (string * string))
    (submissions : list Submissions.t) : M (list Submissions.t) :=
  match submissions with
  | [] => mret []
  | current_submission :: rest =>
      updated_submission ← check_one all_submission_contents current_submission;
      updated_submissions ← check_each all_submission_contents rest;
      mret (updated_submission :: updated_submissions)
  end.

(** Lines 540-686: the pass once the contents are downloaded. *)
Definition evaluate (all_submission_contents : list (string * string))
    (submissions : list Submissions.t) : M (list Submissions.t) :=
  if (length all_submission_contents <? 2)%nat then
    mret (map without_plagiarism submissions)
  else check_each all_submission_contents submissions.

(** The [try] block of [check_plagiarism]. *)
Definition check_plagiarism_body (st : storage) (state : AssignmentGrade.t)
  : M (list Submissions.t) :=
  submissions ← lift (getitem (AssignmentGrade.submission_ids state));
  assignment_id ← lift (getitem (AssignmentGrade.assignment_id state));
  match supabase st with
  | None => mret submissions
  | Some select_submissions =>
      data ← lift (select_submissions assignment_id);
      match data with
      | [] => mret submissions
      | _ => evaluate (download_all st data []) submissions
      end
  end.

(** On any exception the handler returns [state['submission_ids']]. *)
Definition check_plagiarism_with (st : storage) (state : AssignmentGrade.t)
  : M (list Submissions.t) :=
  try_except (check_plagiarism_body st state)
    (λ _, lift (getitem (AssignmentGrade.submission_ids state))).

End Evaluator.

(** [check_plagiarism] with the two checks of the module. *)
Definition check_plagiarism (str_float : float → string) (w : world)
    (st : storage) (state : AssignmentGrade.t) : M (list Submissions.t) :=
  check_plagiarism_with str_float (check_web_sources w)
    (check_academic_sources w) st state.

(** The value returned on two strings. *)
Definition jaccard (text1 text2 : string) : float :=
  match calculate_text_similarity (Some text1) (Some text2) with
  | Ok q => q
  | Raised _ => 0%Q
  end.

(** What a source kept by one of the two checks for [text] satisfies: the
    raw similarity of the text with the candidate it was built from passed
    the cut-off, and its similarity is that value as a percentage with two
    decimals. *)
Definition above_cutoff (text : string) (s : SourceMatch.t) : Prop :=
  ∃ candidate : string,
    let raw := jaccard (lower text) (lower candidate) in
    (1 # 10 < raw)%Q ∧
    SourceMatch.similarity s = round2 (raw * 100)%Q ∧
    (10 <= SourceMatch.similarity s)%Q.








(** A world where only Qdrant answers, with one document. *)
Definition one_document_world (content : string) : world := {|
  serpapi_key := None;
  serpapi := λ _, Raised RequestException;
  duckduckgo := λ _, Raised RequestException;
  qdrant_configured := true;
  similarity_search := λ _ _, Ok [ {| metadata := ∅; page_content := content |} ]
|}.

(** ** Closed forms of the loops of [check_plagiarism] *)

(** An entry of [all_submission_contents] the inner loop compares with. *)
Definition compared_with (current_id : string) (item : string * string) : bool :=
  negb (String.eqb (fst item) current_id) && truthy (snd item).

(** The value [max_similarity] ends with. *)
Fixpoint best_similarity (current_id current_content : string)
    (items : list (string * string)) (max_similarity : float) : float :=
  match items with
  | [] => max_similarity
  | item :: rest =>
      best_similarity current_id current_content rest
        (if compared_with current_id item
         then max2 max_similarity (jaccard current_content (snd item))
         else max_similarity)
  end.

(** The comparisons the inner loop logs. *)
Fixpoint comparisons (current_id : string) (items : list (string * string))
  : list event :=
  match items with
  | [] => []
  | item :: rest =>
      if compared_with current_id item
      then Compared current_id (fst item) :: comparisons current_id rest
      else comparisons current_id rest
  end.

(** The sources a check contributes: none when it raised. *)
Definition sources_of (o : outcome (list SourceMatch.t)) : list SourceMatch.t :=
  match o with
  | Ok l => l
  | Raised _ => []
  end.

(** The score from the best internal similarity and the two source lists. *)
Definition score_of (best : float) (web academic : list SourceMatch.t) : float :=
  raise_to_sources (raise_to_sources (round2 (best * 100)%Q) web) academic.

(** [max(s.similarity for s in sources, default=0)] *)
Definition max_similarity_of (sources : list SourceMatch.t) : float :=
  foldr (λ s acc, Qmax (SourceMatch.similarity s) acc) 0%Q sources.

(** [best] is the best pairwise similarity of a text against the other
    submissions of the assignment: 0 when there is none, and otherwise the
    largest similarity with a submission of another id. *)
Definition best_pairwise (current_id current_content : string)
    (others : list (string * string)) (best : float) : Prop :=
  (∀ other_id other_content,
      (other_id, other_content) ∈ others → other_id ≠ current_id →
      (jaccard current_content other_content <= best)%Q) ∧
  ((best == 0)%Q ∨
   ∃ other_id other_content,
      (other_id, other_content) ∈ others ∧ other_id ≠ current_id ∧
      best = jaccard current_content other_content).

(** The identity of a submission. *)
Definition same_identity (s o : Submissions.t) : Prop :=
  Submissions.submission_id o = Submissions.submission_id s ∧
  Submissions.file_url o = Submissions.file_url s ∧
  Submissions.file_content o = Submissions.file_content s.

(** [needle in hay] *)
Definition contains (needle hay : string) : Prop :=
  ∃ before after, hay = before ++ needle ++ after.

(** The text of a submission that has one. *)
Definition has_text (s : Submissions.t) (text : string) : Prop :=
  Submissions.file_content s = Some text ∧ truthy text = true.

Section ClosedForms.

Variable str_float : float → string.
Variable web_check academic_check : string → nat → outcome (list SourceMatch.t).

(** The submission built at the end of a turn of the loop. *)
Definition evaluated (s : Submissions.t) (best : float)
    (web academic : list SourceMatch.t) : Submissions.t :=
  let p := score_of best web academic in
  Submissions.mk (Submissions.submission_id s) (Submissions.file_url s)
    (Submissions.file_content s) (Some p)
    (verify_grade str_float p
       (apply_threshold str_float p (Submissions.total_score s)))
    (or_none web) (or_none academic).

(** What one turn of the loop returns and logs. *)
Definition result_of (contents : list (string * string)) (s : Submissions.t)
  : Submissions.t :=
  match Submissions.file_content s with
  | None => without_plagiarism s
  | Some text =>
      if truthy text then
        evaluated s
          (best_similarity (Submissions.submission_id s) text contents 0%Q)
          (sources_of (web_check text 5%nat))
          (sources_of (academic_check text 5%nat))
      else without_plagiarism s
  end.

Definition events_of (contents : list (string * string)) (s : Submissions.t)
  : list event :=
  match Submissions.file_content s with
  | None => []
  | Some text =>
      if truthy text then
        (comparisons (Submissions.submission_id s) contents
         ++ [WebLookup text; AcademicLookup text])%list
      else []
  end.

End ClosedForms.

(** The original score as the override message prints it. *)
Definition original_score (str_float : float → string)
    (grade : option RubricGrade.t) : string :=
  match grade with
  | None => "N/A"
  | Some g => str_float (RubricGrade.total_score g)
  end.

(** [str()] of a float that has at most two decimals, as Python prints it:
    the integer part, a point, and one or two digits. *)
Definition str_decimal (x : float) : string :=
  let hundredths := round_half_even (x * 100)%Q in
  let sign := if (hundredths <? 0)%Z then "-" else "" in
  let a := Z.abs hundredths in
  let whole := (a / 100)%Z in
  let cents := (a mod 100)%Z in
  sign ++ pretty whole ++ "."
  ++ (if (cents mod 10 =? 0)%Z then pretty (cents / 10)%Z
      else (if (cents <? 10)%Z then "0" else "") ++ pretty cents).

(** Checks that find nothing, and a check that fails. *)
Definition no_sources : string → nat → outcome (list SourceMatch.t) :=
  λ _ _, Ok [].

Definition failing_check : string → nat → outcome (list SourceMatch.t) :=
  λ _ _, Raised RequestException.

(** A graded submission with its text. *)
Definition graded (id text : string) (score : float) : Submissions.t :=
  Submissions.mk id (Some ("https://files/" ++ id)) (Some text) None
    (Some (RubricGrade.mk score "Meets the rubric.")) None None.
Arguments graded _%_string _%_string _%_Q.


(** The override message names the override, the score, the threshold and
    the original grade. *)
Definition override_message (str_float : float → string) (p : float)
    (original reason : string) : Prop :=
  contains "Grade set to 0 due to high plagiarism score" reason ∧
  contains (str_float p ++ "% similarity") reason ∧
  contains ("threshold: " ++ str_float PLAGIARISM_THRESHOLD ++ "%") reason ∧
  contains ("Original grade was " ++ original ++ ".") reason.

(** The grading policy between a submission and what is returned for it. *)
Definition threshold_policy (str_float : float → string)
    (s o : Submissions.t) : Prop :=
  ∃ p : float,
    Submissions.plagerism_score o = Some p ∧
    ((PLAGIARISM_THRESHOLD < p)%Q →
     ∃ reason,
       Submissions.total_score o = Some (RubricGrade.mk 0%Q reason) ∧
       override_message str_float p
         (original_score str_float (Submissions.total_score s)) reason) ∧
    ((p <= PLAGIARISM_THRESHOLD)%Q →
     Submissions.total_score o = Submissions.total_score s).

(** A submission returned with no plagiarism found and nothing else
    changed. *)
Definition cleared (s o : Submissions.t) : Prop :=
  same_identity s o ∧
  Submissions.plagerism_score o = Some 0%Q ∧
  Submissions.total_score o = Submissions.total_score s ∧
  Submissions.web_sources o = None ∧
  Submissions.academic_sources o = None.

(** A check that finds one page at 55 per cent. *)
Definition one_source : string → nat → outcome (list SourceMatch.t) :=
  λ _ _, Ok [SourceMatch.mk "https://example.org/essay" (Some "Essay") 55%Q
               (Some "the cat sat")].

(** A table that cannot be read, and storage over it. *)
Definition unreachable_storage : storage := {|
  supabase := Some (λ _, Raised RequestException);
  http_get := λ _, Raised RequestException
|}.


(** The score of a submission with text is the maximum of the three
    signals, rounded to two decimals. *)
Definition score_is_maximum (w : world) (contents : list (string * string))
    (s o : Submissions.t) : Prop :=
  ∀ text, has_text s text →
    ∃ (best : float) (web academic : list SourceMatch.t) (p : float),
      best_pairwise (Submissions.submission_id s) text contents best ∧
      check_web_sources w text 5%nat = Ok web ∧
      check_academic_sources w text 5%nat = Ok academic ∧
      Submissions.web_sources o = or_none web ∧
      Submissions.academic_sources o = or_none academic ∧
      Submissions.plagerism_score o = Some p ∧
      (p == round2 (Qmax (best * 100)
                      (Qmax (max_similarity_of web)
                            (max_similarity_of academic))))%Q.

(** A world where no search engine and no knowledge base is configured. *)
Definition offline_world : world := {|
  serpapi_key := None;
  serpapi := λ _, Raised RequestException;
  duckduckgo := λ _, Raised RequestException;
  qdrant_configured := false;
  similarity_search := λ _ _, Raised RequestException
|}.

(** Storage with the given rows, where exactly the files of [available]
    can be downloaded. *)
Definition storage_of (rows : list Row.t) (available : list (string * string))
  : storage := {|
  supabase := Some (λ _, Ok rows);
  http_get := λ file_url,
    match list_find (λ entry, fst entry = file_url) available with
    | Some (_, (_, text)) => Ok text
    | None => Raised RequestException
    end
|}.

Definition row_of (id : string) : Row.t :=
  Row.mk id (Some ("https://files/" ++ id)).

Definition state_of (subs : list Submissions.t) : AssignmentGrade.t :=
  AssignmentGrade.mk (Some "assignment-1") (Some subs).


(** Three submissions of one assignment, two of them identical. *)
Definition text_A : string := "machine learning is great".
Definition text_C : string := "cooking pasta requires water".

Definition sample_submissions : list Submissions.t :=
  [graded "A" text_A 90; graded "B" text_A 80; graded "C" text_C 70].

Definition sample_rows : list Row.t := [row_of "A"; row_of "B"; row_of "C"].

Definition sample_storage : storage :=
  storage_of sample_rows
    [("https://files/A", text_A); ("https://files/B", text_A);
     ("https://files/C", text_C)].

Definition sample_contents : list (string * string) :=
  [("A", text_A); ("B", text_A); ("C", text_C)].

(** The same assignment when only the file of B can be downloaded. *)
Definition flaky_storage : storage :=
  storage_of sample_rows [("https://files/B", text_A)].


(** The assignment when A is its only submission. *)
Definition single_storage : storage :=
  storage_of [row_of "A"] [("https://files/A", text_A)].

(** ** The pass when fewer than two submissions have text *)

(** The submissions that have non-empty text, by id: the submissions under
    evaluation whose parsed content is not empty, and the submissions of the
    assignment whose downloaded content is not empty. *)
Definition with_text (contents : list (string * string))
    (submissions : list Submissions.t) : gset string :=
  list_to_set
    (map fst (filter (λ item, truthy (snd item) = true) contents))
  ∪ list_to_set
      (map Submissions.submission_id
         (filter (λ s, falsy (Submissions.file_content s) = false)
            submissions)).

(** No submission with text finds, under another id, a downloaded content
    that is not empty. *)
Definition no_peer_text (contents : list (string * string))
    (submissions : list Submissions.t) : Prop :=
  ∀ s text other_id other_content,
    s ∈ submissions → has_text s text →
    (other_id, other_content) ∈ contents → truthy other_content = true →
    other_id = Submissions.submission_id s.

(** The two lookups made for a submission with text. *)
Definition lookups_of (s : Submissions.t) : list event :=
  match Submissions.file_content s with
  | None => []
  | Some text =>
      if truthy text then [WebLookup text; AcademicLookup text] else []
  end.

(** What is returned for a submission when the internal signal is 0.0: a
    submission without text is cleared, and a submission with text is the
    one the loop builds from the sources of the two checks, its score being
    the largest similarity among them. *)
Definition scored_externally (str_float : float → string)
    (web_check academic_check : string → nat → outcome (list SourceMatch.t))
    (s o : Submissions.t) : Prop :=
  (falsy (Submissions.file_content s) = true → cleared s o) ∧
  (∀ text, has_text s text →
     let web := sources_of (web_check text 5%nat) in
     let academic := sources_of (academic_check text 5%nat) in
     o = evaluated str_float s 0%Q web academic ∧
     ∃ p, Submissions.plagerism_score o = Some p ∧
          (p == Qmax (max_similarity_of web) (max_similarity_of academic))%Q).

(** Two downloaded contents of which one is empty, and the two submissions
    they belong to. *)
Definition blank_peer_contents : list (string * string) :=
  [("A", text_A); ("B", "")].

Definition blank_peer_submissions : list Submissions.t :=
  [graded "A" text_A 90; graded "B" "" 80].

(** * The other nodes of the grading graph *)

(** ** The floats a language model may return *)

(** A Python [float] that comes from outside the program: a number, [nan],
    or one of the two infinities. The floats of the plagiarism pass above
    are numbers; the score read from the answer of the model may be any of
    the four. *)
Inductive pyfloat : Type :=
  | Finite (x : float)
  | NaN
  | PosInf
  | NegInf.
Arguments Finite _%_Q.

(** [a < b]: false as soon as one side is [nan]. *)
Definition float_lt (a b : pyfloat) : bool :=
  match a, b with
  | NaN, _ | _, NaN => false
  | NegInf, NegInf => false
  | NegInf, _ => true
  | _, NegInf => false
  | PosInf, _ => false
  | Finite _, PosInf => true
  | Finite x, Finite y => gt y x
  end.

(** [min(a, b)] and [max(a, b)]: the first argument unless the second is
    smaller, respectively larger. *)
Definition float_min (a b : pyfloat) : pyfloat :=
  if float_lt b a then b else a.

Definition float_max (a b : pyfloat) : pyfloat :=
  if float_lt a b then b else a.

(** The least integer that [float()] refuses with [OverflowError]:
    [2**1024 - 2**970], half way between the largest double and [2**1024]. *)
Definition DBL_OVERFLOW : Z := (2 ^ 1024 - 2 ^ 970)%Z.

(** ** JSON values as Python sees them *)

#[local] Set Warnings "-register-all".
Inductive json : Type :=
  | JNull
  | JBool (b : bool)
  | JInt (n : Z)
  | JFloat (x : pyfloat)
  | JString (s : string)
  | JArray (items : list json)
  | JObject (fields : list (string * json)).

(** [bool(v)] *)
Definition json_truthy (v : json) : bool :=
  match v with
  | JNull => false
  | JBool b => b
  | JInt n => negb (n =? 0)%Z
  | JFloat (Finite x) => negb (Qeq_bool x 0)
  | JFloat _ => true
  | JString s => truthy s
  | JArray [] => false
  | JArray (_ :: _) => true
  | JObject [] => false
  | JObject (_ :: _) => true
  end.

(** The exceptions raised while one submission is graded; the handler of
    the loop of [grade_submissions] treats them alike. *)
Inductive grading_error : Type :=
  | ValueError
  | TypeError
  | OverflowError
  | ValidationError
  | ChainError.

(** What [chain.invoke] returns: an object with the attributes of a
    [RubricGrade], a dict, or anything else. *)
Inductive llm_result : Type :=
  | AsModel (total_score : pyfloat) (reason : string)
  | AsDict (fields : gmap string json)
  | AsOther.

(** The whole [AssignmentGrade] state of the graph; a key may be missing,
    and [rubric] and [questions] are [Optional[str]]. *)
Module GradingState.
Record t : Type := mk {
  assignment_id : option string;
  submission_ids : option (list Submissions.t);
  rubric : option (option string);
  questions : option (option string);
  student_ids : option (option (list string))
}.
End GradingState.

(** The two keys [check_plagiarism] reads. *)
Definition plagiarism_view (state : GradingState.t) : AssignmentGrade.t :=
  AssignmentGrade.mk (GradingState.assignment_id state)
    (GradingState.submission_ids state).

(** ** [grade_submissions] *)

(** The [RubricGrade] that [grade_submissions] builds: its [total_score] is
    the float obtained from the answer of the model. *)
Module LlmGrade.
Record t : Type := mk { total_score : pyfloat; reason : string }.
End LlmGrade.

(** The [Submissions] objects of the list [grade_submissions] returns. *)
Module Graded.
Record t : Type := mk {
  submission_id : string;
  file_url : option string;
  file_content : option string;
  plagerism_score : option float;
  total_score : option LlmGrade.t;
  web_sources : option (list SourceMatch.t);
  academic_sources : option (list SourceMatch.t)
}.
End Graded.

(** A submission of the state, appended to the list as it is. *)
Definition kept (submission : Submissions.t) : Graded.t :=
  Graded.mk (Submissions.submission_id submission)
    (Submissions.file_url submission) (Submissions.file_content submission)
    (Submissions.plagerism_score submission)
    (match Submissions.total_score submission with
     | Some g =>
         Some (LlmGrade.mk (Finite (RubricGrade.total_score g))
                 (RubricGrade.reason g))
     | None => None
     end)
    (Submissions.web_sources submission)
    (Submissions.academic_sources submission).

(** [grade_float] after the range test: a float outside [0, 100] becomes
    [max(0.0, min(100.0, grade_float))]; [nan] fails both comparisons and
    is left as it is. *)
Definition clamp_grade (grade_float : pyfloat) : pyfloat :=
  if float_lt grade_float (Finite 0) || float_lt (Finite 100) grade_float
  then float_max (Finite 0) (float_min (Finite 100) grade_float)
  else grade_float.

Section Grading.

(** [float(s)] on a [str]; [None] is its [ValueError]. *)
Variable float_of_str : string → option pyfloat.

(** The chain of prompt, model and parser, on the questions, the rubric and
    the text of a submission. *)
Variable chain_invoke :
  option string → option string → string → grading_error + llm_result.

(** The grade and the reason read from the result of the chain. *)
Definition result_fields (result : llm_result) : grading_error + json * json :=
  match result with
  | AsModel total_score reason => inr (JFloat total_score, JString reason)
  | AsDict fields =>
      match fields !! "total_score" with
      | None => inl ValueError
      | Some grade =>
          match fields !! "reason" with
          | None => inl ValueError
          | Some reason_text => inr (grade, reason_text)
          end
      end
  | AsOther => inl ValueError
  end.

(** [reason_text[:200] if reason_text else 'None'] in the debug line: a
    truthy value that cannot be sliced raises. *)
Definition debug_reason (reason_text : json) : grading_error + unit :=
  if json_truthy reason_text then
    match reason_text with
    | JString _ | JArray _ => inr tt
    | _ => inl TypeError
    end
  else inr tt.

(** [float(grade)] after the test [grade is None]. A [ValueError] or a
    [TypeError] of the conversion is raised again as [ValueError]; the
    [OverflowError] of an integer too large for a double is not caught
    there. *)
Definition float_of_grade (grade : json) : grading_error + pyfloat :=
  match grade with
  | JNull => inl ValueError
  | JBool b => inr (Finite (if b then 1 else 0))
  | JInt n =>
      if (Z.abs n <? DBL_OVERFLOW)%Z then inr (Finite (inject_Z n))
      else inl OverflowError
  | JFloat x => inr x
  | JString s =>
      match float_of_str s with
      | Some x => inr x
      | None => inl ValueError
      end
  | JArray _ | JObject _ => inl ValueError
  end.

(** [reason_text or "No reason provided"] as the [str] field of a
    [RubricGrade]. *)
Definition reason_of (reason_text : json) : grading_error + string :=
  if json_truthy reason_text then
    match reason_text with
    | JString s => inr s
    | _ => inl ValidationError
    end
  else inr "No reason provided".

(** The grade of one text. The rubric of the state is a string, so
    [total_points] stays [None] and the grade is not recomputed from the
    points quoted in the reason. *)
Definition grade_text (questions rubric : option string) (file_content : string)
  : grading_error + LlmGrade.t :=
  match chain_invoke questions rubric file_content with
  | inl e => inl e
  | inr result =>
      match result_fields result with
      | inl e => inl e
      | inr (grade, reason_text) =>
          match debug_reason reason_text with
          | inl e => inl e
          | inr _ =>
              match float_of_grade grade with
              | inl e => inl e
              | inr grade_float =>
                  match reason_of reason_text with
                  | inl e => inl e
                  | inr reason =>
                      inr (LlmGrade.mk (clamp_grade grade_float) reason)
                  end
              end
          end
      end
  end.

(** One turn of the loop over the submissions. *)
Definition grade_one (questions rubric : option string)
    (submission : Submissions.t) : Graded.t :=
  match Submissions.file_content submission with
  | None => kept submission
  | Some file_content =>
      if negb (truthy file_content) then kept submission
      else
        match grade_text questions rubric file_content with
        | inl _ => kept submission
        | inr rubric_grade =>
            Graded.mk (Submissions.submission_id submission)
              (Submissions.file_url submission) (Some file_content)
              (Submissions.plagerism_score submission) (Some rubric_grade)
              None None
        end
  end.

Definition grade_submissions (state : GradingState.t)
  : outcome (list Graded.t) :=
  match
    submissions ← getitem (GradingState.submission_ids state);
    questions ← getitem (GradingState.questions state);
    rubric ← getitem (GradingState.rubric state);
    Ok (map (grade_one questions rubric) submissions)
  with
  | Ok graded_submissions => Ok graded_submissions
  | Raised _ =>
      submissions ← getitem (GradingState.submission_ids state);
      Ok (map kept submissions)
  end.

End Grading.

(** ** [download_and_parse_files] *)

(** [needle in hay] *)
Fixpoint occurs (needle hay : string) : bool :=
  String.prefix needle hay
  || match hay with
     | EmptyString => false
     | String _ hay' => occurs needle hay'
     end.

(** The answer to [requests.get]: the content-type header (the empty string
    when there is none) and the body. *)
Record http_response : Type := {
  content_type : string;
  content : string
}.

Section Download.

(** [Path(url).suffix] *)
Variable suffix : string → string.

(** [requests.get(url)] followed by [raise_for_status()]. *)
Variable http : string → outcome http_response.

(** The text of the pages of a PDF, and the UTF-8 decoding of a file;
    [None] when PyMuPDF, or the decoder, raises. *)
Variable pdf_text : string → option string.
Variable decode_utf8 : string → option string.

Definition file_extension (file_url : string) (response : http_response)
  : string :=
  let file_extension := lower (suffix file_url) in
  if truthy file_extension then file_extension
  else
    let content_type := content_type response in
    if occurs "pdf" content_type then ".pdf"
    else if occurs "python" content_type || occurs "text" content_type
    then ".py"
    else file_extension.

(** The text of a downloaded file; [None] when parsing raises. *)
Definition parse_file (file_extension : string) (response : http_response)
  : option string :=
  if String.eqb file_extension ".pdf" then pdf_text (content response)
  else if String.eqb file_extension ".py" then decode_utf8 (content response)
  else
    match decode_utf8 (content response) with
    | Some text => Some text
    | None => Some ""
    end.

(** One turn of the loop: on any failure the submission is kept as it is. *)
Definition download_one (submission : Submissions.t) : Submissions.t :=
  match Submissions.file_url submission with
  | None => submission
  | Some file_url =>
      match http file_url with
      | Raised _ => submission
      | Ok response =>
          match parse_file (file_extension file_url response) response with
          | None => submission
          | Some file_content =>
              Submissions.mk (Submissions.submission_id submission)
                (Some file_url) (Some file_content)
                (Submissions.plagerism_score submission)
                (Submissions.total_score submission) None None
          end
      end
  end.

Definition download_and_parse_files (state : GradingState.t)
  : outcome (list Submissions.t) :=
  match
    submissions ← getitem (GradingState.submission_ids state);
    Ok (map download_one submissions)
  with
  | Ok updated_submissions => Ok updated_submissions
  | Raised _ => getitem (GradingState.submission_ids state)
  end.

End Download.

(** ** [fetch_submission_ids] *)

(** The query on the submissions table: the assignment, and the students
    to keep when the query is filtered with [in_]. *)
Definition submissions_query : Type :=
  string → option (list string) → outcome (list Row.t).

Definition new_submission (row : Row.t) : Submissions.t :=
  Submissions.mk (Row.id row) (Row.file_url row) None None None None None.

Definition fetch_submission_ids (client : option submissions_query)
    (state : GradingState.t) : list Submissions.t :=
  match client with
  | None => []
  | Some query =>
      match GradingState.assignment_id state with
      | None => []
      | Some assignment_id =>
          let student_ids :=
            match GradingState.student_ids state with
            | Some (Some (s :: rest)) => Some (s :: rest)
            | _ => None
            end in
          match query assignment_id student_ids with
          | Raised _ => []
          | Ok data => map new_submission data
          end
      end
  end.

(** ** Saving the grades: the loop of [grade_assignment] in [main_rbac.py] *)

(** The arguments of one call of [update_submission_grade]. *)
Record grade_update : Type := {
  update_id : string;
  update_grade : float;
  update_reason : string;
  update_plagiarism : option float;
  update_web_sources : option (list SourceMatch.t);
  update_academic_sources : option (list SourceMatch.t)
}.

Section Saving.

Variable str_float : float → string.

(** [update_submission_grade]: whether the row was updated. *)
Variable update_submission_grade : grade_update → bool.

(** The update prepared for a graded submission, with the second check of
    the plagiarism threshold. *)
Definition prepare_update (submission : Submissions.t)
    (total_score_obj : RubricGrade.t) : grade_update :=
  let grade := RubricGrade.total_score total_score_obj in
  let reason :=
    if truthy (RubricGrade.reason total_score_obj)
    then RubricGrade.reason total_score_obj
    else "No reason provided" in
  let plagiarism := Submissions.plagerism_score submission in
  let forced :=
    match plagiarism with
    | Some p => gt p PLAGIARISM_THRESHOLD && negb (Qeq_bool grade 0%Q)
    | None => false
    end in
  {| update_id := Submissions.submission_id submission;
     update_grade := if forced then 0%Q else grade;
     update_reason :=
       match plagiarism with
       | Some p =>
           if forced then
             "Grade set to 0 due to high plagiarism score (" ++ str_float p
             ++ "% similarity, threshold: " ++ str_float PLAGIARISM_THRESHOLD
             ++ "%). " ++ reason
           else reason
       | None => reason
       end;
     update_plagiarism := plagiarism;
     update_web_sources := Submissions.web_sources submission;
     update_academic_sources := Submissions.academic_sources submission |}.

(** The loop over the submissions of the result: the two counters and the
    updates sent, in order. *)
Fixpoint save_grades (submissions_list : list Submissions.t)
    (graded_count failed_count : nat) (sent : list grade_update)
  : nat * nat * list grade_update :=
  match submissions_list with
  | [] => (graded_count, failed_count, sent)
  | submission :: rest =>
      match Submissions.total_score submission with
      | Some total_score_obj =>
          let update := prepare_update submission total_score_obj in
          if update_submission_grade update
          then save_grades rest (S graded_count) failed_count
                 (sent ++ [update])%list
          else save_grades rest graded_count (S failed_count)
                 (sent ++ [update])%list
      | None => save_grades rest graded_count (S failed_count) sent
      end
  end.

End Saving.


(** ** What the nodes keep: predicates for the statements *)

(** A grade between 0 and 100 with a reason. *)
Definition valid_grade (g : RubricGrade.t) : Prop :=
  (0 <= RubricGrade.total_score g <= 100)%Q ∧ RubricGrade.reason g ≠ "".

(** The state after a node returned a new list of submissions. *)
Definition with_submissions (state : GradingState.t)
    (subs : list Submissions.t) : GradingState.t :=
  GradingState.mk (GradingState.assignment_id state) (Some subs)
    (GradingState.rubric state) (GradingState.questions state)
    (GradingState.student_ids state).

(** A source as the web check builds it. *)
Definition web_source (s : SourceMatch.t) : Prop :=
  truthy (SourceMatch.url s) = true ∧
  ∃ snippet, SourceMatch.snippet s = Some snippet ∧
             (String.length snippet ≤ 200)%nat.

(** A row whose file can be downloaded, with the text obtained. *)
Definition downloadable (st : storage) (row : Row.t) (text : string) : Prop :=
  ∃ file_url,
    Row.file_url row = Some file_url ∧ truthy file_url = true ∧
    http_get st file_url = Ok text.

(** A chain that answers every text with the same dict. *)
Definition constant_chain (total_score reason : json)
  : option string → option string → string → grading_error + llm_result :=
  λ _ _ _, inr (AsDict {[ "total_score" := total_score; "reason" := reason ]}).

(** The state of the sample assignment before grading. *)
Definition sample_state : GradingState.t :=
  GradingState.mk (Some "assignment-1") (Some sample_submissions)
    (Some (Some "Total Points: 30")) (Some (Some "Assignment Questions:"))
    (Some (Some ["student-1"])).

(** A grade as [grade_submissions] stores it: a number between 0 and 100,
    or [nan], with a reason. *)
Definition stored_grade (g : LlmGrade.t) : Prop :=
  match LlmGrade.total_score g with
  | Finite x => (0 <= x <= 100)%Q
  | NaN => True
  | PosInf | NegInf => False
  end ∧ LlmGrade.reason g ≠ "".

(** What [grade_one] does to a submission: nothing, or a new grade on the
    same submission. *)
Definition graded_from (s : Submissions.t) (o : Graded.t) : Prop :=
  o = kept s ∨
  (Graded.submission_id o = Submissions.submission_id s ∧
   Graded.file_url o = Submissions.file_url s ∧
   Graded.file_content o = Submissions.file_content s ∧
   Graded.plagerism_score o = Submissions.plagerism_score s ∧
   ∃ text g,
     has_text s text ∧ Graded.total_score o = Some g ∧ stored_grade g).

(** The submission built for [s] from a score and the reason of the model:
    the source lists are not passed on. *)
Definition graded_as (s : Submissions.t) (score : pyfloat) (reason : string)
  : Graded.t :=
  Graded.mk (Submissions.submission_id s) (Submissions.file_url s)
    (Submissions.file_content s) (Submissions.plagerism_score s)
    (Some (LlmGrade.mk score
             (if truthy reason then reason else "No reason provided")))
    None None.

(** What is returned for a submission [s] with text when the model
    answers the number [grade] with the reason [reason]: a float, or an
    integer that fits a double, is brought into [0, 100]; plus infinity
    gives 100 and minus infinity 0; [nan] is stored as it is; an integer
    too large for a double leaves the submission as it was. *)
Definition scored_from (s : Submissions.t) (grade : json) (reason : string)
    (o : Graded.t) : Prop :=
  (∀ x, grade = JFloat (Finite x) →
     ∃ y, o = graded_as s (Finite y) reason ∧
          (y == Qmax 0 (Qmin 100 x))%Q) ∧
  (∀ n, grade = JInt n → (Z.abs n < DBL_OVERFLOW)%Z →
     ∃ y, o = graded_as s (Finite y) reason ∧
          (y == Qmax 0 (Qmin 100 (inject_Z n)))%Q) ∧
  (∀ n, grade = JInt n → (DBL_OVERFLOW <= Z.abs n)%Z → o = kept s) ∧
  (grade = JFloat NaN → o = graded_as s NaN reason) ∧
  (grade = JFloat PosInf → o = graded_as s (Finite 100) reason) ∧
  (grade = JFloat NegInf → o = graded_as s (Finite 0) reason).

(** A submission for which no grade can be built: it has no text, or the
    chain raises, or answers neither a dict nor a [RubricGrade], or answers
    a dict without [reason], or one whose [total_score] is missing, null,
    a list, a string that is no number, or an integer too large for a
    double. *)
Definition ungradable (float_of_str : string → option pyfloat)
    (chain_invoke :
       option string → option string → string → grading_error + llm_result)
    (questions rubric : option string) (s : Submissions.t) : Prop :=
  falsy (Submissions.file_content s) = true ∨
  ∃ text, has_text s text ∧
    ((∃ e, chain_invoke questions rubric text = inl e) ∨
     chain_invoke questions rubric text = inr AsOther ∨
     ∃ fields, chain_invoke questions rubric text = inr (AsDict fields) ∧
       (fields !! "reason" = None ∨
        fields !! "total_score" = None ∨
        fields !! "total_score" = Some JNull ∨
        (∃ items, fields !! "total_score" = Some (JArray items)) ∨
        (∃ word, fields !! "total_score" = Some (JString word) ∧
                 float_of_str word = None) ∨
        (∃ n, fields !! "total_score" = Some (JInt n) ∧
              (DBL_OVERFLOW <= Z.abs n)%Z))).

(** A chain whose scores never convert to [nan]. *)
Definition nan_free (float_of_str : string → option pyfloat)
    (chain_invoke :
       option string → option string → string → grading_error + llm_result)
  : Prop :=
  ∀ questions rubric text result grade reason_text,
    chain_invoke questions rubric text = inr result →
    result_fields result = inr (grade, reason_text) →
    float_of_grade float_of_str grade ≠ inr NaN.

(** What [download_and_parse_files] does to a submission: nothing, or a
    text in place of the content, with the source lists reset. *)
Definition parsed_from (s o : Submissions.t) : Prop :=
  o = s ∨
  (Submissions.submission_id o = Submissions.submission_id s ∧
   Submissions.file_url o = Submissions.file_url s ∧
   Submissions.plagerism_score o = Submissions.plagerism_score s ∧
   Submissions.total_score o = Submissions.total_score s ∧
   ∃ text, Submissions.file_content o = Some text).

(** A submission as [fetch_submission_ids] creates it from a row. *)
Definition fresh_from (row : Row.t) (o : Submissions.t) : Prop :=
  Submissions.submission_id o = Row.id row ∧
  Submissions.file_url o = Row.file_url row ∧
  Submissions.file_content o = None ∧
  Submissions.plagerism_score o = None ∧
  Submissions.total_score o = None ∧
  Submissions.web_sources o = None ∧
  Submissions.academic_sources o = None.

(** The submissions of a list that carry a grade. *)
Definition graded_ones (subs : list Submissions.t) : list Submissions.t :=
  filter (λ s, is_Some (Submissions.total_score s)) subs.


(** What the plagiarism pass does to the grade of a submission: nothing,
    or the grade 0.0 with a reason. *)
Definition regraded (s o : Submissions.t) : Prop :=
  same_identity s o ∧
  (Submissions.total_score o = Submissions.total_score s ∨
   ∃ reason,
     Submissions.total_score o = Some (RubricGrade.mk 0 reason) ∧
     reason ≠ "").

(** What grading followed by the plagiarism pass does to a submission. *)
Definition graded_and_checked (s o : Submissions.t) : Prop :=
  same_identity s o ∧
  (Submissions.total_score o = Submissions.total_score s ∨
   ∃ g, Submissions.total_score o = Some g ∧ valid_grade g).

(** The update sent for a submission is the grade it carries. *)
Definition saved_as_returned (str_float : float → string)
    (o : Submissions.t) : Prop :=
  ∀ g, Submissions.total_score o = Some g →
    let u := prepare_update str_float o g in
    update_id u = Submissions.submission_id o ∧
    update_grade u = RubricGrade.total_score g ∧
    update_reason u
    = (if truthy (RubricGrade.reason g) then RubricGrade.reason g
       else "No reason provided") ∧
    update_plagiarism u = Submissions.plagerism_score o ∧
    update_web_sources u = Submissions.web_sources o ∧
    update_academic_sources u = Submissions.academic_sources o.


(** The pass on the sample assignment, without sources. *)
Definition sample_outs : list Submissions.t :=
  Eval vm_compute in
    match (evaluate str_decimal no_sources no_sources sample_contents
             sample_submissions []).1 with
    | Ok outs => outs
    | Raised _ => []
    end.

Definition sample_log : list event :=
  Eval vm_compute in
    (evaluate str_decimal no_sources no_sources sample_contents
       sample_submissions []).2.

(** A chain that grades every text 120 out of 100. *)
Definition generous_chain
  : option string → option string → string → grading_error + llm_result :=
  constant_chain (JInt 120) (JString "Good work").

(** [float(s)] where no string is a number, and where "nan" is one. *)
Definition no_number : string → option pyfloat := λ _, None.

Definition float_of_nan : string → option pyfloat :=
  λ word, if String.eqb word "nan" then Some NaN else None.

(** A chain that fails in a different way on each of seven texts, answers
    [nan] on two others, and grades every other text 120 out of 100. *)
Definition moody_chain
  : option string → option string → string → grading_error + llm_result :=
  λ _ _ text,
    if String.eqb text "timeout" then inl ChainError
    else if String.eqb text "prose" then inr AsOther
    else if String.eqb text "no reason" then
      inr (AsDict {[ "total_score" := JInt 80 ]})
    else if String.eqb text "no score" then
      inr (AsDict {[ "reason" := JString "Fine" ]})
    else if String.eqb text "null score" then
      inr (AsDict {[ "total_score" := JNull; "reason" := JString "Fine" ]})
    else if String.eqb text "letter score" then
      inr (AsDict {[ "total_score" := JString "A+";
                     "reason" := JString "Fine" ]})
    else if String.eqb text "huge score" then
      inr (AsDict {[ "total_score" := JInt (2 ^ 1024);
                     "reason" := JString "Fine" ]})
    else if String.eqb text "nan score" then
      inr (AsDict {[ "total_score" := JFloat NaN;
                     "reason" := JString "Fine" ]})
    else if String.eqb text "infinite score" then
      inr (AsDict {[ "total_score" := JFloat PosInf;
                     "reason" := JString "" ]})
    else
      inr (AsDict {[ "total_score" := JInt 120;
                     "reason" := JString "Good work" ]}).

(** A submission that has been downloaded and not graded yet. *)
Definition parsed (id : string) (file_content : option string)
  : Submissions.t :=
  Submissions.mk id (Some ("https://files/" ++ id)) file_content None None
    None None.

Definition moody_submissions : list Submissions.t :=
  [parsed "S0" None; parsed "S1" (Some ""); parsed "S2" (Some "timeout");
   parsed "S3" (Some "prose"); parsed "S4" (Some "no reason");
   parsed "S5" (Some "no score"); parsed "S6" (Some "null score");
   parsed "S7" (Some "letter score"); parsed "S8" (Some "huge score");
   parsed "S9" (Some "nan score"); parsed "S10" (Some "infinite score");
   parsed "S11" (Some text_A)].

Definition moody_state : GradingState.t :=
  GradingState.mk (Some "assignment-1") (Some moody_submissions)
    (Some (Some "Total Points: 30")) (Some (Some "Assignment Questions:"))
    None.

(** The same state before the rubric was fetched. *)
Definition state_without_rubric : GradingState.t :=
  GradingState.mk (Some "assignment-1") (Some moody_submissions)
    None (Some (Some "Assignment Questions:")) None.

(** The submissions of the sample that cannot be graded, with what is
    returned at their positions. *)
Definition returned_as_it_is (i : nat) (s : Submissions.t) : Prop :=
  ∃ outs,
    grade_submissions float_of_nan moody_chain moody_state = Ok outs ∧
    length outs = length moody_submissions ∧
    outs !! i = Some (kept s).

(** The submissions of the sample that the model answers with a number. *)
Definition returned_with (i : nat) (s : Submissions.t) (grade : json)
    (reason : string) : Prop :=
  ∃ outs o,
    grade_submissions float_of_nan moody_chain moody_state = Ok outs ∧
    length outs = length moody_submissions ∧
    outs !! i = Some o ∧
    scored_from s grade reason o.

(** Files served as plain text. *)
Definition plain_http : string → outcome http_response :=
  λ _, Ok {| content_type := "text/plain"; content := "print(1)" |}.


(** * Properties *)

(** ** The similarity of two texts *)

Example split_ex : split (lower "The  cat SAT") = ["the"; "cat"; "sat"].
Proof. reflexivity. Qed.

Example sim_ex :
  calculate_text_similarity (Some "the cat sat on the mat")
                            (Some "the cat sat on the mat today") = Ok (5 # 6)%Q.
Proof. vm_compute. reflexivity. Qed.

Lemma Zpos_of_nat_S (n : nat) : Zpos (Pos.of_nat (S n)) = Z.of_nat (S n).
Proof. rewrite <- positive_nat_Z, Nat2Pos.id; [reflexivity | lia]. Qed.

(** On two strings the function is the Jaccard quotient, guarded. *)
Lemma calculate_text_similarity_str (text1 text2 : string) :
  calculate_text_similarity (Some text1) (Some text2) =
  let inter := size (word_set text1 ∩ word_set text2) in
  let union := size (word_set text1 ∪ word_set text2) in
  match union with
  | O => Ok 0%Q
  | S _ => Ok (Z.of_nat inter # Pos.of_nat union)%Q
  end.
Proof.
  unfold calculate_text_similarity, words; simpl.
  destruct (size (word_set text1 ∪ word_set text2)) as [|n] eqn:E; reflexivity.
Qed.

Lemma calculate_text_similarity_jaccard (text1 text2 : string) :
  calculate_text_similarity (Some text1) (Some text2) = Ok (jaccard text1 text2).
Proof.
  unfold jaccard. rewrite calculate_text_similarity_str; simpl.
  destruct (size _); reflexivity.
Qed.

Lemma jaccard_bounds (text1 text2 : string) :
  (0 <= jaccard text1 text2 <= 1)%Q.
Proof.
  unfold jaccard. rewrite calculate_text_similarity_str; simpl.
  destruct (size (word_set text1 ∪ word_set text2)) as [|n] eqn:E.
  - split; [apply Qle_refl | discriminate].
  - assert (Hle : (size (word_set text1 ∩ word_set text2) ≤ S n)%nat).
    { rewrite <- E. apply subseteq_size. set_solver. }
    unfold Qle; simpl. rewrite Zpos_of_nat_S. lia.
Qed.

Lemma jaccard_empty_l (text : string) : (jaccard "" text == 0)%Q.
Proof.
  unfold jaccard. rewrite calculate_text_similarity_str; simpl.
  assert (E : word_set "" ∩ word_set text = ∅) by set_solver.
  rewrite E, size_empty. destruct (size _); reflexivity.
Qed.

Lemma jaccard_empty_r (text : string) : (jaccard text "" == 0)%Q.
Proof.
  unfold jaccard. rewrite calculate_text_similarity_str; simpl.
  assert (E : word_set text ∩ word_set "" = ∅) by set_solver.
  rewrite E, size_empty. destruct (size _); reflexivity.
Qed.

Lemma jaccard_sym (text1 text2 : string) : jaccard text1 text2 = jaccard text2 text1.
Proof.
  unfold jaccard. rewrite !calculate_text_similarity_str; simpl.
  assert (Ei : word_set text1 ∩ word_set text2 = word_set text2 ∩ word_set text1)
    by set_solver.
  assert (Eu : word_set text1 ∪ word_set text2 = word_set text2 ∪ word_set text1)
    by set_solver.
  rewrite Ei, Eu. reflexivity.
Qed.

(** C6, as amended. A text with at least one word has similarity 1 with
    itself: for every string [x] whose word set is not empty,
    [calculate_text_similarity x x] returns a value equal to 1. *)
Theorem self_similarity (x : string) :
  word_set x ≠ ∅ →
  ∃ q, calculate_text_similarity (Some x) (Some x) = Ok q ∧ (q == 1)%Q.
Proof.
  intros Hne. rewrite calculate_text_similarity_str; simpl.
  assert (Ei : word_set x ∩ word_set x = word_set x) by set_solver.
  assert (Eu : word_set x ∪ word_set x = word_set x) by set_solver.
  rewrite Ei, Eu.
  destruct (size (word_set x)) as [|n] eqn:E.
  - apply size_empty_iff in E. exfalso. apply Hne. set_solver.
  - eexists; split; [reflexivity |].
    unfold Qeq; simpl. rewrite Zpos_of_nat_S. lia.
Qed.

Lemma self_similarity_witness :
  word_set "machine learning is great" ≠ ∅ ∧
  ∃ q, calculate_text_similarity (Some "machine learning is great")
                                 (Some "machine learning is great") = Ok q
       ∧ (q == 1)%Q.
Proof.
  assert (H : word_set "machine learning is great" ≠ ∅).
  { intros E. apply (f_equal size) in E. vm_compute in E. discriminate. }
  split; [exact H | exact (self_similarity _ H)].
Defined.

(** C6, as stated, fails on a text of white space only: the string is not
    empty, its word set is, and the guard on the empty union returns 0. *)
Lemma self_similarity_blank :
  ¬ ∀ x : string, x ≠ "" →
      ∃ q, calculate_text_similarity (Some x) (Some x) = Ok q ∧ (q == 1)%Q.
Proof.
  intros H. destruct (H " ") as (q & Hq & H1); [discriminate |].
  vm_compute in Hq. injection Hq as <-. discriminate H1.
Qed.

(** C7, as amended. On every pair of strings the function returns a value
    between 0 and 1 and raises nothing; the value is 0.0 when the union of
    the two word sets is empty and equals 0 when either string is empty;
    on no input at all, [None] included, does it divide by zero. *)
Theorem calculate_text_similarity_total :
  (∀ t1 t2 : option string,
      calculate_text_similarity t1 t2 ≠ Raised ZeroDivisionError) ∧
  (∀ text1 text2 : string,
      ∃ q, calculate_text_similarity (Some text1) (Some text2) = Ok q
           ∧ (0 <= q <= 1)%Q
           ∧ (word_set text1 ∪ word_set text2 = ∅ → q = 0%Q)
           ∧ (text1 = "" ∨ text2 = "" → (q == 0)%Q)) ∧
  calculate_text_similarity (Some "") (Some "") = Ok 0%Q.
Proof.
  split; [| split].
  - intros [t1|] [t2|]; try discriminate.
    rewrite calculate_text_similarity_str; simpl.
    destruct (size _); discriminate.
  - intros text1 text2. exists (jaccard text1 text2).
    split; [apply calculate_text_similarity_jaccard |].
    split; [apply jaccard_bounds |]. split.
    + intros E. unfold jaccard.
      rewrite calculate_text_similarity_str; simpl.
      rewrite E, size_empty. reflexivity.
    + intros [-> | ->]; [apply jaccard_empty_l | apply jaccard_empty_r].
  - reflexivity.
Qed.

(** C7, as stated, fails on an absent text: [None.lower()] raises. *)
Lemma calculate_text_similarity_none :
  calculate_text_similarity None (Some "anything") = Raised AttributeError ∧
  ¬ ∀ t1 t2 : option string, ∃ q, calculate_text_similarity t1 t2 = Ok q.
Proof.
  split; [reflexivity |].
  intros H. destruct (H None (Some "anything")) as [q Hq]. discriminate Hq.
Qed.

(** ** Floats: comparison and rounding *)

Lemma gt_spec (a b : float) : gt a b = true ↔ (b < a)%Q.
Proof.
  unfold gt. rewrite negb_true_iff. split.
  - intros H. apply Qnot_le_lt. intros Hle.
    apply Qle_bool_iff in Hle. congruence.
  - intros H. destruct (Qle_bool a b) eqn:E; [| reflexivity].
    apply Qle_bool_iff in E. exfalso. exact (Qlt_not_le _ _ H E).
Qed.

Lemma gt_false (a b : float) : gt a b = false ↔ (a <= b)%Q.
Proof.
  unfold gt. rewrite negb_false_iff. apply Qle_bool_iff.
Qed.

Lemma round_half_even_floor (q : Q) : (Qfloor q ≤ round_half_even q)%Z.
Proof.
  unfold round_half_even.
  destruct (q - inject_Z (Qfloor q) ?= 1 # 2)%Q; [destruct (Z.even _) | |]; lia.
Qed.

Lemma round_half_even_ceil (q : Q) : (round_half_even q ≤ Qfloor q + 1)%Z.
Proof.
  unfold round_half_even.
  destruct (q - inject_Z (Qfloor q) ?= 1 # 2)%Q; [destruct (Z.even _) | |]; lia.
Qed.

(** A raw similarity above the cut-off is at least 10 as a percentage. *)
Lemma round2_cutoff (raw : float) :
  (1 # 10 < raw)%Q → (10 <= round2 (raw * 100))%Q.
Proof.
  intros H. unfold round2.
  assert (Hf : (1000 ≤ Qfloor (raw * 100 * 100))%Z).
  { rewrite <- (Qfloor_Z 1000). apply Qfloor_resp_le.
    destruct raw as [n d]. unfold Qle, Qlt in *; simpl in *. lia. }
  pose proof (round_half_even_floor (raw * 100 * 100)) as Hr.
  unfold Qle; simpl. lia.
Qed.

(** ** The two source checks keep what passed the cut-off *)

Lemma above_cutoff_intro text candidate url title snippet :
  (1 # 10 < jaccard (lower text) (lower candidate))%Q →
  above_cutoff text
    (SourceMatch.mk url title
       (round2 (jaccard (lower text) (lower candidate) * 100)%Q) snippet).
Proof.
  intros H. exists candidate. simpl. auto using round2_cutoff.
Qed.

Lemma serp_matches_cutoff (text : string) (results : list serp_result) :
  ∃ l, serp_matches text results = Ok l ∧ Forall (above_cutoff text) l.
Proof.
  induction results as [|r rest (l & IH & HF)].
  - exists []. split; [reflexivity | constructor].
  - simpl. destruct (truthy (link r)); [| eauto].
    unfold mbind, outcome_bind at 1.
    rewrite calculate_text_similarity_jaccard. rewrite IH. simpl.
    destruct (gt _ _) eqn:E; [| eauto].
    eexists; split; [reflexivity |].
    constructor; [| exact HF].
    apply above_cutoff_intro, gt_spec, E.
Qed.

Lemma ddg_matches_cutoff (text : string) (results : list ddg_result) :
  ∃ l, ddg_matches text results = Ok l ∧ Forall (above_cutoff text) l.
Proof.
  induction results as [|r rest (l & IH & HF)].
  - exists []. split; [reflexivity | constructor].
  - simpl. destruct (truthy (href r) && truthy (link_text r)); [| eauto].
    unfold mbind, outcome_bind at 1.
    rewrite calculate_text_similarity_jaccard. rewrite IH. simpl.
    destruct (gt _ _) eqn:E; [| eauto].
    eexists; split; [reflexivity |].
    constructor; [| exact HF].
    apply above_cutoff_intro, gt_spec, E.
Qed.

Lemma academic_matches_cutoff (text : string) (results : list document) :
  ∃ l, academic_matches text results = Ok l ∧ Forall (above_cutoff text) l.
Proof.
  induction results as [|r rest (l & IH & HF)].
  - exists []. split; [reflexivity | constructor].
  - simpl. unfold mbind, outcome_bind at 1.
    rewrite calculate_text_similarity_jaccard. rewrite IH. simpl.
    destruct (gt _ _) eqn:E; [| eauto].
    eexists; split; [reflexivity |].
    constructor; [| exact HF].
    apply above_cutoff_intro, gt_spec, E.
Qed.

Lemma check_web_sources_cutoff (w : world) (text : string) (max_results : nat) :
  ∃ l, check_web_sources w text max_results = Ok l ∧ Forall (above_cutoff text) l.
Proof.
  unfold check_web_sources.
  destruct (serp_sources w text max_results) as [l|] eqn:E.
  - exists l. split; [reflexivity |].
    unfold serp_sources in E.
    destruct (serpapi_key w); [| discriminate].
    destruct (truthy _); [| discriminate].
    destruct (serpapi w text) as [response|]; [| discriminate].
    destruct (_ =? _)%nat; [| discriminate].
    destruct (organic_results response) as [results|].
    + destruct (serp_matches_cutoff text (take max_results results))
        as (l' & Hl & HF).
      rewrite Hl in E. injection E as <-. exact HF.
    + injection E as <-. constructor.
  - eexists; split; [reflexivity |]. unfold ddg_sources.
    destruct (duckduckgo w text) as [response|]; [| constructor].
    destruct (_ =? _)%nat; [| constructor].
    destruct (ddg_results response) as [results|]; [| constructor].
    destruct (ddg_matches_cutoff text (take max_results results))
      as (l' & -> & HF).
    apply Forall_take, HF.
Qed.

Lemma check_academic_sources_cutoff (w : world) (text : string)
    (max_results : nat) :
  ∃ l, check_academic_sources w text max_results = Ok l
       ∧ Forall (above_cutoff text) l.
Proof.
  unfold check_academic_sources.
  destruct (qdrant_configured w);
    [| eexists; split; [reflexivity | constructor]].
  destruct (similarity_search w text max_results) as [results|];
    [| eexists; split; [reflexivity | constructor]].
  destruct (academic_matches_cutoff text results) as (l & -> & HF).
  eauto.
Qed.

(** [max] over a list stays inside the list. *)
Lemma max_from_elem (best : float) (l : list float) :
  max_from best l = best ∨ max_from best l ∈ l.
Proof.
  revert best. induction l as [|x l IH]; intros best; simpl; [auto |].
  destruct (IH (if gt x best then x else best)) as [-> | H].
  - destruct (gt x best); [right; left | left; reflexivity].
  - right. right. exact H.
Qed.

Lemma raise_to_sources_cases (p : float) (sources : list SourceMatch.t) :
  raise_to_sources p sources = p ∨
  ∃ s, s ∈ sources ∧ raise_to_sources p sources = SourceMatch.similarity s.
Proof.
  destruct sources as [|s rest]; simpl; [auto |].
  destruct (gt _ p); [| auto]. right.
  destruct (max_from_elem (SourceMatch.similarity s)
              (map SourceMatch.similarity rest)) as [-> | H].
  - exists s. split; [left | reflexivity].
  - apply list_elem_of_fmap in H as (s' & -> & Hs').
    exists s'. split; [right; exact Hs' | reflexivity].
Qed.

(** ** Texts of distinct words *)




















(** ** The loops of [check_plagiarism] in closed form *)

Section EvaluatorFacts.

Variable str_float : float → string.
Variable web_check academic_check : string → nat → outcome (list SourceMatch.t).

Lemma compare_all_closed (current_id current_content : string)
    (items : list (string * string)) (max_similarity : float)
    (log : list event) :
  compare_all current_id current_content items max_similarity log
  = (Ok (best_similarity current_id current_content items max_similarity),
     (log ++ comparisons current_id items)%list).
Proof.
  revert max_similarity log.
  induction items as [|[other_id other_content] rest IH];
    intros max_similarity log.
  - simpl. unfold mret, M_ret. rewrite app_nil_r. reflexivity.
  - simpl. unfold compared_with. simpl.
    destruct (String.eqb other_id current_id); simpl; [apply IH |].
    destruct (truthy other_content); simpl; [| apply IH].
    unfold mbind, M_bind, tell, lift.
    rewrite calculate_text_similarity_jaccard, IH.
    rewrite <- app_assoc. reflexivity.
Qed.

Lemma check_one_closed (contents : list (string * string))
    (s : Submissions.t) (log : list event) :
  check_one str_float web_check academic_check contents s log
  = (Ok (result_of str_float web_check academic_check contents s),
     (log ++ events_of contents s)%list).
Proof.
  unfold check_one, result_of, events_of.
  destruct (Submissions.file_content s) as [text|] eqn:E.
  - destruct (truthy text); simpl.
    + unfold mbind, M_bind. rewrite compare_all_closed.
      unfold tell, try_except, lift, mret, M_ret, evaluated, score_of. simpl.
      rewrite E.
      destruct (web_check text 5%nat), (academic_check text 5%nat); simpl;
        rewrite <- !app_assoc; reflexivity.
    + unfold mret, M_ret. rewrite app_nil_r. reflexivity.
  - unfold mret, M_ret. rewrite app_nil_r. reflexivity.
Qed.

Lemma check_each_closed (contents : list (string * string))
    (subs : list Submissions.t) (log : list event) :
  check_each str_float web_check academic_check contents subs log
  = (Ok (map (result_of str_float web_check academic_check contents) subs),
     (log ++ concat (map (events_of contents) subs))%list).
Proof.
  revert log. induction subs as [|s rest IH]; intros log; simpl.
  - unfold mret, M_ret. rewrite app_nil_r. reflexivity.
  - unfold mbind, M_bind. rewrite check_one_closed, IH.
    unfold mret, M_ret. rewrite <- app_assoc. reflexivity.
Qed.

Lemma evaluate_closed (contents : list (string * string))
    (subs : list Submissions.t) (log : list event) :
  evaluate str_float web_check academic_check contents subs log
  = if (length contents <? 2)%nat
    then (Ok (map without_plagiarism subs), log)
    else (Ok (map (result_of str_float web_check academic_check contents) subs),
          (log ++ concat (map (events_of contents) subs))%list).
Proof.
  unfold evaluate. destruct (_ <? _)%nat; [reflexivity |].
  apply check_each_closed.
Qed.

End EvaluatorFacts.

(** ** What the pass returns *)

Lemma Forall2_map_self {A B} (R : A → B → Prop) (f : A → B) (l : list A) :
  (∀ x, R x (f x)) → Forall2 R l (map f l).
Proof.
  intros H. induction l as [|x l IH]; simpl; constructor; auto.
Qed.

Lemma string_app_assoc (a b c : string) : (a ++ b) ++ c = a ++ b ++ c.
Proof.
  induction a as [|x a IH]; [reflexivity |].
  change (String x ((a ++ b) ++ c) = String x (a ++ b ++ c)).
  f_equal. exact IH.
Qed.

(** ** Rounding to two decimals *)

Lemma round_half_even_proper (x y : Q) :
  (x == y)%Q → round_half_even x = round_half_even y.
Proof.
  intros H. unfold round_half_even.
  rewrite (Qfloor_comp _ _ H).
  assert (Hr : (x - inject_Z (Qfloor y) == y - inject_Z (Qfloor y))%Q)
    by (rewrite H; reflexivity).
  rewrite (Qcompare_comp _ _ Hr (1 # 2) (1 # 2) (Qeq_refl _)). reflexivity.
Qed.

Lemma round_half_even_mono (x y : Q) :
  (x <= y)%Q → (round_half_even x ≤ round_half_even y)%Z.
Proof.
  intros H. pose proof (Qfloor_resp_le _ _ H) as Hf.
  destruct (Z.eq_dec (Qfloor x) (Qfloor y)) as [E | Hne].
  - unfold round_half_even. rewrite E.
    destruct (Qcompare_spec (x - inject_Z (Qfloor y)) (1 # 2)) as [Hx|Hx|Hx];
      destruct (Qcompare_spec (y - inject_Z (Qfloor y)) (1 # 2)) as [Hy|Hy|Hy];
      try destruct (Z.even (Qfloor y)); try lia; exfalso; lra.
  - pose proof (round_half_even_ceil x). pose proof (round_half_even_floor y).
    lia.
Qed.

Lemma round_half_even_Z (z : Z) : round_half_even (inject_Z z) = z.
Proof.
  unfold round_half_even. rewrite Qfloor_Z.
  destruct (Qcompare_spec (inject_Z z - inject_Z z) (1 # 2)) as [H|H|H];
    [exfalso; lra | reflexivity | exfalso; lra].
Qed.

Lemma round2_proper (x y : float) : (x == y)%Q → round2 x = round2 y.
Proof.
  intros H. unfold round2. f_equal. apply round_half_even_proper.
  rewrite H. reflexivity.
Qed.

Lemma round2_mono (x y : float) : (x <= y)%Q → (round2 x <= round2 y)%Q.
Proof.
  intros H. unfold round2, Qle. simpl.
  assert (Hm : (round_half_even (x * 100) ≤ round_half_even (y * 100))%Z)
    by (apply round_half_even_mono; lra).
  lia.
Qed.

Lemma round2_nonneg (x : float) : (0 <= x)%Q → (0 <= round2 x)%Q.
Proof.
  intros H. unfold round2, Qle. simpl.
  assert (Hf : (0 ≤ Qfloor (x * 100))%Z).
  { rewrite <- (Qfloor_Z 0). apply Qfloor_resp_le.
    change (inject_Z 0) with 0%Q. lra. }
  pose proof (round_half_even_floor (x * 100)). lia.
Qed.

(** A value with two decimals is left as it is. *)
Lemma round2_hundredths (z : Z) : round2 (z # 100) = (z # 100)%Q.
Proof.
  unfold round2. f_equal. rewrite <- (round_half_even_Z z) at 2.
  apply round_half_even_proper.
  unfold Qeq. simpl. lia.
Qed.

Lemma round2_idem (x : float) : round2 (round2 x) = round2 x.
Proof. unfold round2 at 2 3. apply round2_hundredths. Qed.

Lemma round2_Qmax (a b : float) :
  (round2 (Qmax a b) == Qmax (round2 a) (round2 b))%Q.
Proof.
  destruct (Qlt_le_dec b a) as [H | H].
  - apply Qlt_le_weak in H.
    rewrite (round2_proper _ _ (Q.max_l _ _ H)).
    rewrite Q.max_l by (apply round2_mono, H). reflexivity.
  - rewrite (round2_proper _ _ (Q.max_r _ _ H)).
    rewrite Q.max_r by (apply round2_mono, H). reflexivity.
Qed.

(** ** The score as a maximum *)

Lemma max_from_bounds (best : float) (l : list float) :
  (best <= max_from best l)%Q ∧ ∀ x, x ∈ l → (x <= max_from best l)%Q.
Proof.
  revert best. induction l as [|y l IH]; intros best; simpl.
  - split; [apply Qle_refl |]. intros x H. inversion H.
  - destruct (IH (if gt y best then y else best)) as [Hb Hl].
    assert (Hy : (y <= (if gt y best then y else best))%Q ∧
                 (best <= (if gt y best then y else best))%Q).
    { destruct (gt y best) eqn:E.
      - apply gt_spec in E. split; lra.
      - apply gt_false in E. split; lra. }
    destruct Hy as [Hy Hbest].
    split; [eapply Qle_trans; eauto |].
    intros x [-> | Hx]%elem_of_cons; [eapply Qle_trans; eauto | auto].
Qed.

Lemma raise_to_sources_bounds (p : float) (sources : list SourceMatch.t) :
  (p <= raise_to_sources p sources)%Q ∧
  ∀ s, s ∈ sources →
       (SourceMatch.similarity s <= raise_to_sources p sources)%Q.
Proof.
  destruct sources as [|s rest]; simpl.
  - split; [apply Qle_refl |]. intros s H. inversion H.
  - destruct (max_from_bounds (SourceMatch.similarity s)
                (map SourceMatch.similarity rest)) as [Hs Hrest].
    set (m := max_from _ _) in *.
    assert (Hm : (m <= (if gt m p then m else p))%Q ∧
                 (p <= (if gt m p then m else p))%Q).
    { destruct (gt m p) eqn:E.
      - apply gt_spec in E. split; lra.
      - apply gt_false in E. split; lra. }
    destruct Hm as [Hm Hp].
    split; [exact Hp |].
    intros s' [-> | Hs']%elem_of_cons; [eapply Qle_trans; eauto |].
    apply Qle_trans with m; [| exact Hm].
    apply Hrest, list_elem_of_fmap_2, Hs'.
Qed.

Lemma max_similarity_of_bounds (sources : list SourceMatch.t) :
  (0 <= max_similarity_of sources)%Q ∧
  (∀ s, s ∈ sources →
        (SourceMatch.similarity s <= max_similarity_of sources)%Q) ∧
  ((max_similarity_of sources == 0)%Q ∨
   ∃ s, s ∈ sources ∧
        (max_similarity_of sources == SourceMatch.similarity s)%Q).
Proof.
  induction sources as [|s rest (H0 & Hall & Hatt)]; simpl.
  - split; [apply Qle_refl |]. split; [| left; reflexivity].
    intros s H. inversion H.
  - pose proof (Q.le_max_l (SourceMatch.similarity s) (max_similarity_of rest)).
    pose proof (Q.le_max_r (SourceMatch.similarity s) (max_similarity_of rest)).
    split; [lra |]. split.
    + intros s' [-> | Hs']%elem_of_cons; [assumption |].
      specialize (Hall s' Hs'). lra.
    + destruct (Q.max_dec (SourceMatch.similarity s) (max_similarity_of rest))
        as [E | E].
      * right. exists s. split; [left | exact E].
      * destruct Hatt as [Hz | (s' & Hs' & E')].
        -- left. rewrite E. exact Hz.
        -- right. exists s'. split; [right; exact Hs' |].
           rewrite E. exact E'.
Qed.

Lemma raise_to_sources_Qmax (p : float) (sources : list SourceMatch.t) :
  (0 <= p)%Q →
  (raise_to_sources p sources == Qmax p (max_similarity_of sources))%Q.
Proof.
  intros Hp.
  destruct (raise_to_sources_bounds p sources) as [Hge Hall].
  destruct (max_similarity_of_bounds sources) as (H0 & Hall' & Hatt).
  pose proof (Q.le_max_l p (max_similarity_of sources)).
  pose proof (Q.le_max_r p (max_similarity_of sources)).
  apply Qle_antisym.
  - destruct (raise_to_sources_cases p sources) as [-> | (s & Hs & ->)];
      [assumption |].
    specialize (Hall' s Hs). lra.
  - apply Q.max_lub; [exact Hge |].
    destruct Hatt as [-> | (s & Hs & ->)]; [lra | auto].
Qed.


(** ** The best pairwise similarity *)

Lemma max2_ge_l (a b : float) : (a <= max2 a b)%Q.
Proof.
  unfold max2. destruct (gt b a) eqn:E; [| apply Qle_refl].
  apply gt_spec in E. apply Qlt_le_weak, E.
Qed.

Lemma max2_ge_r (a b : float) : (b <= max2 a b)%Q.
Proof.
  unfold max2. destruct (gt b a) eqn:E; [apply Qle_refl |].
  apply gt_false in E. exact E.
Qed.

Lemma max2_cases (a b : float) : max2 a b = a ∨ max2 a b = b.
Proof. unfold max2. destruct (gt b a); auto. Qed.

Lemma truthy_false (text : string) : truthy text = false → text = "".
Proof. destruct text; [reflexivity | discriminate]. Qed.

Lemma best_similarity_invariant (current_id current_content : string)
    (items : list (string * string)) (m : float) :
  (0 <= m)%Q →
  let best := best_similarity current_id current_content items m in
  (m <= best)%Q ∧
  (∀ other_id other_content,
      (other_id, other_content) ∈ items → other_id ≠ current_id →
      (jaccard current_content other_content <= best)%Q) ∧
  (best = m ∨
   ∃ other_id other_content,
      (other_id, other_content) ∈ items ∧ other_id ≠ current_id ∧
      best = jaccard current_content other_content).
Proof.
  revert m. induction items as [|[other_id other_content] rest IH];
    intros m Hm; simpl.
  - split; [apply Qle_refl |]. split; [| auto].
    intros ? ? H. inversion H.
  - remember (if compared_with current_id (other_id, other_content)
              then max2 m (jaccard current_content other_content) else m)
      as m' eqn:Em'.
    assert (Hmm' : (m <= m')%Q).
    { rewrite Em'. destruct (compared_with _ _);
        [apply max2_ge_l | apply Qle_refl]. }
    assert (Hm' : (0 <= m')%Q) by (eapply Qle_trans; eauto).
    destruct (IH m' Hm') as (Hge & Hall & Hatt).
    split; [eapply Qle_trans; eauto |]. split.
    + intros oid oc Hin Hne.
      apply elem_of_cons in Hin as [[= -> ->] | Hin]; [| eauto].
      eapply Qle_trans; [| exact Hge].
      rewrite Em'. unfold compared_with. simpl.
      apply String.eqb_neq in Hne. rewrite Hne. simpl.
      destruct (truthy other_content) eqn:Et; [apply max2_ge_r |].
      apply truthy_false in Et as ->.
      rewrite jaccard_empty_r. exact Hm.
    + destruct Hatt as [Hb | (oid & oc & Hin & Hne & Hb)].
      * destruct (compared_with current_id (other_id, other_content)) eqn:Ec;
          [| left; congruence].
        destruct (max2_cases m (jaccard current_content other_content))
          as [E | E]; [left; congruence |].
        right. exists other_id, other_content.
        split; [left |]. split; [| congruence].
        unfold compared_with in Ec. simpl in Ec.
        apply andb_prop in Ec as [Ec _]. apply negb_true_iff in Ec.
        apply String.eqb_neq, Ec.
      * right. exists oid, oc. split; [right; exact Hin | auto].
Qed.

Lemma best_similarity_pairwise (current_id current_content : string)
    (items : list (string * string)) :
  best_pairwise current_id current_content items
    (best_similarity current_id current_content items 0%Q).
Proof.
  destruct (best_similarity_invariant current_id current_content items 0%Q)
    as (_ & Hall & Hatt); [apply Qle_refl |].
  split; [exact Hall |].
  destruct Hatt as [-> | H]; [left; reflexivity | right; exact H].
Qed.

Lemma best_similarity_bounds (current_id current_content : string)
    (items : list (string * string)) :
  (0 <= best_similarity current_id current_content items 0 <= 1)%Q.
Proof.
  destruct (best_similarity_invariant current_id current_content items 0%Q)
    as (Hge & _ & Hatt); [apply Qle_refl |].
  split; [exact Hge |].
  destruct Hatt as [-> | (oid & oc & _ & _ & ->)];
    [discriminate | apply jaccard_bounds].
Qed.


Section PassProperties.

Variable str_float : float → string.
Variable web_check academic_check : string → nat → outcome (list SourceMatch.t).

(** The pass never raises: it always returns its list. *)
Lemma evaluate_returns (contents : list (string * string))
    (subs : list Submissions.t) (log : list event) :
  ∃ outs log',
    evaluate str_float web_check academic_check contents subs log
    = (Ok outs, log') ∧
    (outs = map without_plagiarism subs
     ∨ outs = map (result_of str_float web_check academic_check contents) subs).
Proof.
  rewrite evaluate_closed. destruct (_ <? _)%nat; eauto.
Qed.

Lemma without_plagiarism_identity (s : Submissions.t) :
  same_identity s (without_plagiarism s).
Proof. repeat split. Qed.

Lemma result_of_identity (contents : list (string * string))
    (s : Submissions.t) :
  same_identity s (result_of str_float web_check academic_check contents s).
Proof.
  unfold result_of. destruct (Submissions.file_content s) as [text|];
    [destruct (truthy text) |]; repeat split.
Qed.

Lemma same_identity_refl (s : Submissions.t) : same_identity s s.
Proof. repeat split. Qed.

Lemma evaluate_identity (contents : list (string * string))
    (subs : list Submissions.t) (log : list event) :
  ∃ outs log',
    evaluate str_float web_check academic_check contents subs log
    = (Ok outs, log') ∧
    Forall2 same_identity subs outs.
Proof.
  destruct (evaluate_returns contents subs log) as (outs & log' & E & [-> | ->]);
    eexists _, log'; (split; [exact E |]); apply Forall2_map_self;
    auto using without_plagiarism_identity, result_of_identity.
Qed.

(** C8. Whatever the storage and the state, when the state holds a list of
    submissions [check_plagiarism] returns exactly one submission per input
    submission, in the same order, each with the [submission_id], the
    [file_url] and the [file_content] of the input at its position. *)
Theorem check_plagiarism_identity (st : storage) (state : AssignmentGrade.t)
    (subs : list Submissions.t) (log : list event) :
  AssignmentGrade.submission_ids state = Some subs →
  ∃ outs log',
    check_plagiarism_with str_float web_check academic_check st state log
    = (Ok outs, log') ∧
    length outs = length subs ∧
    Forall2 same_identity subs outs.
Proof.
  intros Hsubs.
  assert (Hsame : Forall2 same_identity subs subs)
    by (apply Forall_Forall2_diag, Forall_forall; intros; apply same_identity_refl).
  enough (∃ outs log',
            check_plagiarism_with str_float web_check academic_check st state
              log = (Ok outs, log') ∧
            Forall2 same_identity subs outs) as (outs & log' & E & HF).
  { exists outs, log'. split; [exact E |]. split; [| exact HF].
    symmetry. exact (Forall2_length _ _ _ HF). }
  unfold check_plagiarism_with, try_except, check_plagiarism_body.
  rewrite Hsubs. unfold mbind, M_bind, lift, mret, M_ret. simpl.
  destruct (AssignmentGrade.assignment_id state) as [assignment_id|]; simpl;
    [| eauto].
  destruct (supabase st) as [select_submissions|]; [| eauto].
  destruct (select_submissions assignment_id) as [[|row rows]|];
    [simpl; eauto | | simpl; eauto].
  destruct (evaluate_identity (download_all st (row :: rows) []) subs log)
    as (outs & log' & E & HF).
  cbv beta iota. rewrite E. eauto.
Qed.

(** Once the rows of the assignment are read, [check_plagiarism] is the
    pass over the downloaded contents. *)
Lemma check_plagiarism_runs_pass (st : storage) (state : AssignmentGrade.t)
    (subs : list Submissions.t) (assignment_id : string)
    (select_submissions : string → outcome (list Row.t))
    (row : Row.t) (rows : list Row.t) (log : list event) :
  AssignmentGrade.submission_ids state = Some subs →
  AssignmentGrade.assignment_id state = Some assignment_id →
  supabase st = Some select_submissions →
  select_submissions assignment_id = Ok (row :: rows) →
  check_plagiarism_with str_float web_check academic_check st state log
  = evaluate str_float web_check academic_check
      (download_all st (row :: rows) []) subs log.
Proof.
  intros Hsubs Hid Hdb Hrows.
  destruct (evaluate_returns (download_all st (row :: rows) []) subs log)
    as (outs & log' & E & _).
  rewrite E.
  unfold check_plagiarism_with, try_except, check_plagiarism_body.
  rewrite Hsubs, Hid. unfold mbind, M_bind, lift, mret, M_ret. simpl.
  rewrite Hdb, Hrows. cbv beta iota. rewrite E. reflexivity.
Qed.

(** Without the key [submission_ids] the handler raises in its turn. *)
Lemma check_plagiarism_missing_list (st : storage)
    (state : AssignmentGrade.t) (log : list event) :
  AssignmentGrade.submission_ids state = None →
  check_plagiarism_with str_float web_check academic_check st state log
  = (Raised KeyError, log).
Proof.
  intros H. unfold check_plagiarism_with, try_except, check_plagiarism_body.
  rewrite H. reflexivity.
Qed.

(** The [try] block raises only before the pass starts: a missing key of
    the state, or the query of the table. *)
Lemma check_plagiarism_body_raises (st : storage) (state : AssignmentGrade.t)
    (log log' : list event) (e : exn) :
  check_plagiarism_body str_float web_check academic_check st state log
  = (Raised e, log') →
  log' = log ∧
  (AssignmentGrade.submission_ids state = None ∨
   AssignmentGrade.assignment_id state = None ∨
   ∃ select_submissions assignment_id,
     supabase st = Some select_submissions ∧
     AssignmentGrade.assignment_id state = Some assignment_id ∧
     select_submissions assignment_id = Raised e).
Proof.
  unfold check_plagiarism_body, mbind, M_bind, lift, mret, M_ret.
  destruct (AssignmentGrade.submission_ids state) as [subs|]; simpl;
    [| intros [= <- <-]; auto].
  destruct (AssignmentGrade.assignment_id state) as [assignment_id|]; simpl;
    [| intros [= <- <-]; auto].
  destruct (supabase st) as [select_submissions|]; [| discriminate].
  destruct (select_submissions assignment_id) as [[|row rows]|e'] eqn:Eq;
    [discriminate | | intros [= <- <-]; eauto 10].
  destruct (evaluate_returns (download_all st (row :: rows) []) subs log)
    as (outs & log'' & E & _).
  cbv beta iota. rewrite E. discriminate.
Qed.

(** C10. When the [try] block of [check_plagiarism] raises, the function
    returns the list of submissions of the input state as it was: no
    submission of the returned list carries a new score, grade or source
    list, and nothing was looked up. *)
Theorem check_plagiarism_error (st : storage) (state : AssignmentGrade.t)
    (subs : list Submissions.t) (log log' : list event) (e : exn) :
  AssignmentGrade.submission_ids state = Some subs →
  check_plagiarism_body str_float web_check academic_check st state log
  = (Raised e, log') →
  check_plagiarism_with str_float web_check academic_check st state log
  = (Ok subs, log) ∧ log' = log.
Proof.
  intros Hsubs Hraise.
  destruct (check_plagiarism_body_raises _ _ _ _ _ Hraise) as [-> _].
  unfold check_plagiarism_with, try_except. rewrite Hraise.
  unfold lift. rewrite Hsubs. split; reflexivity.
Qed.


(** C4. For whatever contents were downloaded for the other submissions,
    the pass returns for every submission whose text is empty or absent a
    submission with plagiarism score 0.0 and the grade it had. *)
Theorem empty_text_not_penalised (contents : list (string * string))
    (subs : list Submissions.t) (log : list event) :
  ∃ outs log',
    evaluate str_float web_check academic_check contents subs log
    = (Ok outs, log') ∧
    Forall2 (λ s o,
      falsy (Submissions.file_content s) = true →
      Submissions.plagerism_score o = Some 0%Q ∧
      Submissions.total_score o = Submissions.total_score s) subs outs.
Proof.
  destruct (evaluate_returns contents subs log) as (outs & log' & E & [-> | ->]);
    eexists _, log'; (split; [exact E |]); apply Forall2_map_self; intros s Hs.
  - split; reflexivity.
  - unfold result_of.
    destruct (Submissions.file_content s) as [text|]; [| split; reflexivity].
    unfold truthy. rewrite Hs. split; reflexivity.
Qed.

Lemma grade_over (p : float) (grade : option RubricGrade.t) :
  (PLAGIARISM_THRESHOLD < p)%Q →
  verify_grade str_float p (apply_threshold str_float p grade)
  = Some (RubricGrade.mk 0%Q
            (override_reason str_float p (original_score str_float grade))).
Proof.
  intros H. apply gt_spec in H.
  unfold apply_threshold, verify_grade. rewrite H. reflexivity.
Qed.

Lemma grade_under (p : float) (grade : option RubricGrade.t) :
  (p <= PLAGIARISM_THRESHOLD)%Q →
  verify_grade str_float p (apply_threshold str_float p grade) = grade.
Proof.
  intros H. apply gt_false in H.
  unfold apply_threshold, verify_grade. rewrite H.
  destruct grade; reflexivity.
Qed.

Lemma override_reason_message (p : float) (original : string) :
  override_message str_float p original
    (override_reason str_float p original).
Proof.
  unfold override_message, override_reason. repeat split.
  - exists "", (" (" ++ str_float p ++ "% similarity, threshold: "
                ++ str_float PLAGIARISM_THRESHOLD
                ++ "%). Original grade was " ++ original ++ ".").
    reflexivity.
  - exists "Grade set to 0 due to high plagiarism score (",
      (", threshold: " ++ str_float PLAGIARISM_THRESHOLD
       ++ "%). Original grade was " ++ original ++ ".").
    rewrite !string_app_assoc. reflexivity.
  - exists ("Grade set to 0 due to high plagiarism score ("
            ++ str_float p ++ "% similarity, "),
      ("). Original grade was " ++ original ++ ".").
    rewrite !string_app_assoc. reflexivity.
  - exists ("Grade set to 0 due to high plagiarism score ("
            ++ str_float p ++ "% similarity, threshold: "
            ++ str_float PLAGIARISM_THRESHOLD ++ "%). "), "".
    rewrite !string_app_assoc. reflexivity.
Qed.

(** C1. The pass returns for every submission a plagiarism score such
    that, when the score is above the threshold 40.0, the grade returned is
    0.0 with a reason that states the override, the score, the threshold
    and the original grade (N/A when there was none), and, when it is not,
    the grade and its reason are those of the input. *)
Theorem threshold_override (contents : list (string * string))
    (subs : list Submissions.t) (log : list event) :
  ∃ outs log',
    evaluate str_float web_check academic_check contents subs log
    = (Ok outs, log') ∧
    Forall2 (threshold_policy str_float) subs outs.
Proof.
  assert (Hzero : ∀ s, threshold_policy str_float s (without_plagiarism s)).
  { intros s. exists 0%Q. split; [reflexivity |].
    split; [intros H; discriminate H | reflexivity]. }
  destruct (evaluate_returns contents subs log) as (outs & log' & E & [-> | ->]);
    eexists _, log'; (split; [exact E |]); apply Forall2_map_self;
    [exact Hzero |].
  intros s. unfold result_of.
  destruct (Submissions.file_content s) as [text|]; [| apply Hzero].
  destruct (truthy text); [| apply Hzero].
  eexists. split; [reflexivity |]. simpl. split.
  - intros H. rewrite grade_over by exact H.
    eexists. split; [reflexivity |]. apply override_reason_message.
  - intros H. apply grade_under, H.
Qed.

Lemma lookups_logged (contents : list (string * string))
    (s : Submissions.t) (text : string) :
  has_text s text →
  WebLookup text ∈ events_of contents s ∧
  AcademicLookup text ∈ events_of contents s.
Proof.
  intros [Ec Et]. unfold events_of. rewrite Ec, Et.
  split; apply elem_of_app; right; [left | right; left].
Qed.

Lemma result_of_text (contents : list (string * string))
    (s : Submissions.t) (text : string) :
  has_text s text →
  result_of str_float web_check academic_check contents s
  = evaluated str_float s
      (best_similarity (Submissions.submission_id s) text contents 0%Q)
      (sources_of (web_check text 5%nat))
      (sources_of (academic_check text 5%nat)).
Proof.
  intros [Ec Et]. unfold result_of. rewrite Ec, Et. reflexivity.
Qed.

(** Fewer than two elements: any two are the same. *)
Lemma size_lt_2_eq (X : gset string) (i j : string) :
  (size X < 2)%nat → i ∈ X → j ∈ X → i = j.
Proof.
  intros Hsize Hi Hj. destruct (decide (i = j)) as [E | Hne]; [exact E |].
  exfalso.
  assert (Hsub : ({[ i ]} ∪ {[ j ]} : gset string) ⊆ X) by set_solver.
  apply subseteq_size in Hsub.
  rewrite size_union, !size_singleton in Hsub by set_solver. lia.
Qed.

Lemma with_text_submission (contents : list (string * string))
    (subs : list Submissions.t) (s : Submissions.t) (text : string) :
  s ∈ subs → has_text s text →
  Submissions.submission_id s ∈ with_text contents subs.
Proof.
  intros Hs [Ec Et]. unfold with_text. apply elem_of_union. right.
  apply elem_of_list_to_set, list_elem_of_fmap_2, list_elem_of_filter.
  split; [| exact Hs]. rewrite Ec. destruct text; [discriminate | reflexivity].
Qed.

Lemma with_text_content (contents : list (string * string))
    (subs : list Submissions.t) (item : string * string) :
  item ∈ contents → truthy (snd item) = true →
  fst item ∈ with_text contents subs.
Proof.
  intros Hin Ht. unfold with_text. apply elem_of_union. left.
  apply elem_of_list_to_set, list_elem_of_fmap_2, list_elem_of_filter.
  split; assumption.
Qed.

(** With nothing to compare with, the inner loop keeps its maximum and
    logs no comparison. *)
Lemma nothing_compared (current_id current_content : string)
    (items : list (string * string)) (m : float) :
  Forall (λ item, compared_with current_id item = false) items →
  best_similarity current_id current_content items m = m ∧
  comparisons current_id items = [].
Proof.
  intros HF. revert m. induction HF as [|item rest Hitem _ IH]; intros m;
    simpl; [split; reflexivity |].
  rewrite Hitem. apply IH.
Qed.

Lemma Forall2_map_elem {A B} (R : A → B → Prop) (f : A → B) (l : list A) :
  (∀ a, a ∈ l → R a (f a)) → Forall2 R l (map f l).
Proof.
  induction l as [|a l IH]; intros H; simpl; constructor.
  - apply H. left.
  - apply IH. intros a' Ha'. apply H. right. exact Ha'.
Qed.

Lemma concat_map_elem {A B} (f g : A → list B) (l : list A) :
  (∀ a, a ∈ l → f a = g a) → concat (map f l) = concat (map g l).
Proof.
  induction l as [|a l IH]; intros H; simpl; [reflexivity |].
  rewrite (H a) by left. rewrite IH; [reflexivity |].
  intros a' Ha'. apply H. right. exact Ha'.
Qed.

(** The score built from an internal signal of 0.0 is the largest
    similarity among the sources. *)
Lemma score_of_external (web academic : list SourceMatch.t) :
  (score_of 0 web academic
   == Qmax (max_similarity_of web) (max_similarity_of academic))%Q.
Proof.
  unfold score_of.
  assert (E0 : round2 (0 * 100)%Q = (0 # 100)%Q) by reflexivity.
  rewrite E0.
  assert (H0 : (0 <= 0 # 100)%Q) by discriminate.
  destruct (raise_to_sources_bounds (0 # 100)%Q web) as [Hw _].
  destruct (max_similarity_of_bounds web) as (Hmw & _).
  rewrite raise_to_sources_Qmax
    by (apply Qle_trans with (0 # 100)%Q; assumption).
  rewrite (raise_to_sources_Qmax _ web H0).
  rewrite (Q.max_r (0 # 100)%Q (max_similarity_of web)); [reflexivity |].
  eapply Qle_trans; [| exact Hmw]. discriminate.
Qed.

Lemma no_peer_text_compared (contents : list (string * string))
    (subs : list Submissions.t) (s : Submissions.t) (text : string) :
  no_peer_text contents subs →
  s ∈ subs → has_text s text →
  Forall (λ item, compared_with (Submissions.submission_id s) item = false)
    contents.
Proof.
  intros Hpeer Hs Ht. apply Forall_forall. intros [other_id other_content] Hin.
  unfold compared_with. simpl.
  destruct (truthy other_content) eqn:Etext; [| apply andb_false_r].
  rewrite (Hpeer s text other_id other_content Hs Ht Hin Etext).
  rewrite String.eqb_refl. reflexivity.
Qed.

(** C3, as amended. When fewer than two contents were downloaded, the pass
    compares nothing and looks nothing up: the log is left as it was, and
    every submission is returned with plagiarism score 0.0, its grade, and
    no sources. When at least two contents were downloaded and no
    submission with text has a peer with text, the pass compares nothing
    either, so that the internal signal is 0.0, and the two lookups still
    run, in turn, for every submission with text and for no other: the log
    grows by these lookups alone, a submission with text is scored by the
    largest similarity among the sources returned, and a submission without
    text is returned with score 0.0, its grade, and no sources. No
    submission with text has a peer with text as soon as fewer than two
    submissions have non-empty text. *)
Theorem degenerate_pass (contents : list (string * string))
    (subs : list Submissions.t) (log : list event) :
  ((length contents < 2)%nat →
   ∃ outs,
     evaluate str_float web_check academic_check contents subs log
     = (Ok outs, log) ∧
     Forall2 cleared subs outs) ∧
  ((2 ≤ length contents)%nat →
   no_peer_text contents subs →
   ∃ outs,
     evaluate str_float web_check academic_check contents subs log
     = (Ok outs, (log ++ concat (map lookups_of subs))%list) ∧
     Forall2 (scored_externally str_float web_check academic_check)
       subs outs) ∧
  ((size (with_text contents subs) < 2)%nat → no_peer_text contents subs).
Proof.
  split; [| split].
  - intros H. rewrite evaluate_closed.
    apply Nat.ltb_lt in H. rewrite H.
    eexists. split; [reflexivity |].
    apply Forall2_map_self. intros s. repeat split.
  - intros Hlen Hpeer. rewrite evaluate_closed.
    apply Nat.ltb_ge in Hlen. rewrite Hlen.
    eexists. split.
    + f_equal. f_equal. apply concat_map_elem. intros s Hs.
      unfold events_of, lookups_of.
      destruct (Submissions.file_content s) as [text|] eqn:Ec; [| reflexivity].
      destruct (truthy text) eqn:Et; [| reflexivity].
      destruct (nothing_compared (Submissions.submission_id s) text contents
                  0%Q) as [_ ->]; [| reflexivity].
      apply (no_peer_text_compared contents subs s text Hpeer Hs).
      split; assumption.
    + apply Forall2_map_elem. intros s Hs. split.
      * intros Hf. unfold result_of.
        destruct (Submissions.file_content s) as [text|];
          [| repeat split].
        unfold truthy. rewrite Hf. repeat split.
      * intros text Ht. rewrite (result_of_text contents s text Ht).
        destruct (nothing_compared (Submissions.submission_id s) text contents
                    0%Q) as [-> _];
          [apply (no_peer_text_compared contents subs s text Hpeer Hs Ht) |].
        split; [reflexivity |].
        eexists. split; [reflexivity |]. apply score_of_external.
  - intros Hsize s text other_id other_content Hs Ht Hin Etext.
    apply (size_lt_2_eq _ other_id (Submissions.submission_id s) Hsize).
    + apply (with_text_content contents subs (other_id, other_content));
        assumption.
    + eapply with_text_submission; eassumption.
Qed.

(** C5. In a pass over at least two downloaded contents, both checks are
    called on the text of every submission that has one, whatever either
    of them does, and the pass returns one result per submission. When the
    web check raises, the result has no web sources, keeps the sources of
    the academic check, and its score is the internal percentage raised to
    the academic sources; the same holds with the two checks exchanged;
    when both raise, the result has no sources and its score is the
    internal percentage; when neither raises, the sources of both are kept
    and raise the score in turn. The internal percentage comes from the
    best pairwise similarity in all four cases, so that what is returned
    for a submission depends on the two checks through their answers on
    its own text alone. *)
Theorem lookup_failure_isolated (contents : list (string * string))
    (subs : list Submissions.t) (log : list event) (i : nat)
    (s : Submissions.t) (text : string) :
  (2 ≤ length contents)%nat →
  subs !! i = Some s →
  has_text s text →
  ∃ outs log' o best,
    evaluate str_float web_check academic_check contents subs log
    = (Ok outs, (log ++ log')%list) ∧
    length outs = length subs ∧
    outs !! i = Some o ∧
    best_pairwise (Submissions.submission_id s) text contents best ∧
    WebLookup text ∈ log' ∧
    AcademicLookup text ∈ log' ∧
    (∀ e academic,
        web_check text 5%nat = Raised e →
        academic_check text 5%nat = Ok academic →
        Submissions.web_sources o = None ∧
        Submissions.academic_sources o = or_none academic ∧
        Submissions.plagerism_score o
        = Some (raise_to_sources (round2 (best * 100)%Q) academic)) ∧
    (∀ e web,
        academic_check text 5%nat = Raised e →
        web_check text 5%nat = Ok web →
        Submissions.academic_sources o = None ∧
        Submissions.web_sources o = or_none web ∧
        Submissions.plagerism_score o
        = Some (raise_to_sources (round2 (best * 100)%Q) web)) ∧
    (∀ e e',
        web_check text 5%nat = Raised e →
        academic_check text 5%nat = Raised e' →
        Submissions.web_sources o = None ∧
        Submissions.academic_sources o = None ∧
        Submissions.plagerism_score o = Some (round2 (best * 100)%Q)) ∧
    (∀ web academic,
        web_check text 5%nat = Ok web →
        academic_check text 5%nat = Ok academic →
        Submissions.web_sources o = or_none web ∧
        Submissions.academic_sources o = or_none academic ∧
        Submissions.plagerism_score o
        = Some (raise_to_sources
                  (raise_to_sources (round2 (best * 100)%Q) web) academic)).
Proof.
  intros Hlen Hi Ht. rewrite evaluate_closed.
  apply Nat.ltb_ge in Hlen. rewrite Hlen.
  destruct (lookups_logged contents s text Ht) as [Hw Ha].
  assert (Hs : s ∈ subs) by (eapply list_elem_of_lookup_2; eauto).
  assert (Hin : ∀ ev, ev ∈ events_of contents s →
                      ev ∈ concat (map (events_of contents) subs)).
  { intros ev Hev. apply list_elem_of_In, in_concat.
    exists (events_of contents s).
    split; [apply in_map |]; apply list_elem_of_In; assumption. }
  eexists _, _, _, _. split; [reflexivity |].
  split; [apply length_map |].
  split; [rewrite list_lookup_fmap, Hi; reflexivity |].
  split; [apply best_similarity_pairwise |].
  split; [apply Hin, Hw |].
  split; [apply Hin, Ha |].
  rewrite (result_of_text contents s text Ht). unfold evaluated, score_of.
  split; [| split; [| split]].
  - intros e academic -> ->. simpl. auto.
  - intros e web -> ->. simpl. auto.
  - intros e e' -> ->. simpl. auto.
  - intros web academic -> ->. simpl. auto.
Qed.

End PassProperties.

(** ** The score with the two checks of the module *)

Lemma max_similarity_of_two_decimals (text : string)
    (sources : list SourceMatch.t) :
  Forall (above_cutoff text) sources →
  (round2 (max_similarity_of sources) == max_similarity_of sources)%Q.
Proof.
  intros HF.
  destruct (max_similarity_of_bounds sources) as (_ & _ & [E | (s & Hs & E)]).
  - rewrite (round2_proper _ _ E), E. reflexivity.
  - rewrite Forall_forall in HF.
    destruct (HF s Hs) as (raw & _ & Er & _).
    rewrite (round2_proper _ _ E), E, Er, round2_idem. reflexivity.
Qed.

Lemma score_of_maximum (text : string) (best : float)
    (web academic : list SourceMatch.t) :
  (0 <= best)%Q →
  Forall (above_cutoff text) web → Forall (above_cutoff text) academic →
  (score_of best web academic
   == round2 (Qmax (best * 100)
                (Qmax (max_similarity_of web) (max_similarity_of academic))))%Q.
Proof.
  intros Hb Hw Ha. unfold score_of.
  assert (Hr : (0 <= round2 (best * 100))%Q) by (apply round2_nonneg; lra).
  pose proof (raise_to_sources_bounds (round2 (best * 100)%Q) web) as [Hrw _].
  rewrite raise_to_sources_Qmax by (eapply Qle_trans; eauto).
  rewrite (raise_to_sources_Qmax _ web Hr).
  rewrite !round2_Qmax.
  rewrite (max_similarity_of_two_decimals text web Hw).
  rewrite (max_similarity_of_two_decimals text academic Ha).
  rewrite Q.max_assoc. reflexivity.
Qed.

(** C2, as amended. In a pass over at least two downloaded contents, with
    the two checks of the module, the plagiarism score of every submission
    with text equals the maximum of the best pairwise similarity against
    the downloaded contents of the other submissions, as a percentage, of
    the largest similarity among the web sources returned for its text and
    of the largest among the academic sources (0 for an empty list),
    rounded to two decimals. *)
Theorem plagiarism_score_maximum (str_float : float → string) (w : world)
    (contents : list (string * string)) (subs : list Submissions.t)
    (log : list event) :
  (2 ≤ length contents)%nat →
  ∃ outs log',
    evaluate str_float (check_web_sources w) (check_academic_sources w)
      contents subs log = (Ok outs, log') ∧
    Forall2 (score_is_maximum w contents) subs outs.
Proof.
  intros Hlen. rewrite evaluate_closed.
  apply Nat.ltb_ge in Hlen. rewrite Hlen.
  eexists _, _. split; [reflexivity |].
  apply Forall2_map_self. intros s text Ht.
  rewrite (result_of_text _ _ _ contents s text Ht).
  destruct (check_web_sources_cutoff w text 5) as (web & Ew & Hw).
  destruct (check_academic_sources_cutoff w text 5) as (academic & Ea & Ha).
  rewrite Ew, Ea. simpl.
  eexists _, web, academic, _.
  split; [apply best_similarity_pairwise |].
  do 5 (split; [reflexivity |]).
  apply (score_of_maximum text); [apply best_similarity_bounds | assumption..].
Qed.

(** ** The pass on three submissions *)

Example download_sample :
  download_all sample_storage sample_rows [] = sample_contents.
Proof. reflexivity. Qed.

(** A and B are identical: both get 100.0 and the grade 0.0; C shares no
    word with them and keeps its grade. *)
Example check_plagiarism_sample :
  check_plagiarism str_decimal offline_world sample_storage
    (state_of sample_submissions) []
  = (Ok [Submissions.mk "A" (Some "https://files/A") (Some text_A)
           (Some (10000 # 100)%Q)
           (Some (RubricGrade.mk 0
              "Grade set to 0 due to high plagiarism score (100.0% similarity, threshold: 40.0%). Original grade was 90.0."))
           None None;
         Submissions.mk "B" (Some "https://files/B") (Some text_A)
           (Some (10000 # 100)%Q)
           (Some (RubricGrade.mk 0
              "Grade set to 0 due to high plagiarism score (100.0% similarity, threshold: 40.0%). Original grade was 80.0."))
           None None;
         Submissions.mk "C" (Some "https://files/C") (Some text_C)
           (Some (0 # 100)%Q)
           (Some (RubricGrade.mk 70 "Meets the rubric."))
           None None],
     [Compared "A" "B"; Compared "A" "C";
      WebLookup text_A; AcademicLookup text_A;
      Compared "B" "A"; Compared "B" "C";
      WebLookup text_A; AcademicLookup text_A;
      Compared "C" "A"; Compared "C" "B";
      WebLookup text_C; AcademicLookup text_C]).
Proof. vm_compute. reflexivity. Qed.

(** Two nearly identical texts share five words of six: both submissions
    get 83.33 and the grade 0.0. *)
Example check_plagiarism_near_identical :
  fst (check_plagiarism str_decimal offline_world
         (storage_of [row_of "1"; row_of "2"]
            [("https://files/1", "the cat sat on the mat");
             ("https://files/2", "the cat sat on the mat today")])
         (state_of [graded "1" "the cat sat on the mat" 75;
                    graded "2" "the cat sat on the mat today" 60]) [])
  = Ok [Submissions.mk "1" (Some "https://files/1")
          (Some "the cat sat on the mat") (Some (8333 # 100)%Q)
          (Some (RubricGrade.mk 0
             "Grade set to 0 due to high plagiarism score (83.33% similarity, threshold: 40.0%). Original grade was 75.0."))
          None None;
        Submissions.mk "2" (Some "https://files/2")
          (Some "the cat sat on the mat today") (Some (8333 # 100)%Q)
          (Some (RubricGrade.mk 0
             "Grade set to 0 due to high plagiarism score (83.33% similarity, threshold: 40.0%). Original grade was 60.0."))
          None None].
Proof. vm_compute. reflexivity. Qed.

(** A is the only submission with text, and two contents were downloaded:
    nothing is compared, both lookups run for A, and the academic source
    found at 55 per cent sets the score of A and voids its grade; B, whose
    text is empty, is cleared. *)
Example check_plagiarism_blank_peer :
  evaluate str_decimal failing_check one_source blank_peer_contents
    blank_peer_submissions []
  = (Ok [Submissions.mk "A" (Some "https://files/A") (Some text_A)
           (Some 55%Q)
           (Some (RubricGrade.mk 0
              "Grade set to 0 due to high plagiarism score (55.0% similarity, threshold: 40.0%). Original grade was 90.0."))
           None
           (Some [SourceMatch.mk "https://example.org/essay" (Some "Essay")
                    55%Q (Some "the cat sat")]);
         Submissions.mk "B" (Some "https://files/B") (Some "") (Some 0%Q)
           (Some (RubricGrade.mk 80 "Meets the rubric.")) None None],
     [WebLookup text_A; AcademicLookup text_A]).
Proof. vm_compute. reflexivity. Qed.

(** ** Instances *)

Lemma check_plagiarism_identity_witness :
  ∃ outs log',
    check_plagiarism_with str_decimal no_sources one_source sample_storage
      (state_of sample_submissions) [] = (Ok outs, log') ∧
    length outs = length sample_submissions ∧
    Forall2 same_identity sample_submissions outs.
Proof.
  apply (check_plagiarism_identity str_decimal no_sources one_source
           sample_storage (state_of sample_submissions) sample_submissions []).
  reflexivity.
Defined.

Lemma check_plagiarism_error_witness :
  check_plagiarism_with str_decimal no_sources one_source unreachable_storage
    (state_of sample_submissions) []
  = (Ok sample_submissions, []) ∧ [] = ([] : list event).
Proof.
  apply (check_plagiarism_error str_decimal no_sources one_source
           unreachable_storage (state_of sample_submissions)
           sample_submissions [] [] RequestException);
    reflexivity.
Defined.

Lemma degenerate_pass_witness :
  (∃ outs,
     evaluate str_decimal one_source one_source [("A", text_A)]
       sample_submissions [] = (Ok outs, []) ∧
     Forall2 cleared sample_submissions outs) ∧
  (∃ outs,
     evaluate str_decimal failing_check one_source blank_peer_contents
       blank_peer_submissions []
     = (Ok outs,
        ([] ++ concat (map lookups_of blank_peer_submissions))%list) ∧
     Forall2 (scored_externally str_decimal failing_check one_source)
       blank_peer_submissions outs).
Proof.
  split.
  - apply (proj1 (degenerate_pass str_decimal one_source one_source
                    [("A", text_A)] sample_submissions [])).
    simpl. lia.
  - apply (proj1 (proj2 (degenerate_pass str_decimal failing_check one_source
                           blank_peer_contents blank_peer_submissions [])));
      [simpl; lia |].
    apply (proj2 (proj2 (degenerate_pass str_decimal failing_check one_source
                           blank_peer_contents blank_peer_submissions []))).
    vm_compute. lia.
Defined.

Lemma lookup_failure_isolated_witness :
  ∃ outs log' o best,
    evaluate str_decimal failing_check one_source sample_contents
      sample_submissions [] = (Ok outs, ([] ++ log')%list) ∧
    length outs = length sample_submissions ∧
    outs !! 2%nat = Some o ∧
    best_pairwise "C" text_C sample_contents best ∧
    WebLookup text_C ∈ log' ∧
    AcademicLookup text_C ∈ log' ∧
    (∀ e academic,
        failing_check text_C 5%nat = Raised e →
        one_source text_C 5%nat = Ok academic →
        Submissions.web_sources o = None ∧
        Submissions.academic_sources o = or_none academic ∧
        Submissions.plagerism_score o
        = Some (raise_to_sources (round2 (best * 100)%Q) academic)) ∧
    (∀ e web,
        one_source text_C 5%nat = Raised e →
        failing_check text_C 5%nat = Ok web →
        Submissions.academic_sources o = None ∧
        Submissions.web_sources o = or_none web ∧
        Submissions.plagerism_score o
        = Some (raise_to_sources (round2 (best * 100)%Q) web)) ∧
    (∀ e e',
        failing_check text_C 5%nat = Raised e →
        one_source text_C 5%nat = Raised e' →
        Submissions.web_sources o = None ∧
        Submissions.academic_sources o = None ∧
        Submissions.plagerism_score o = Some (round2 (best * 100)%Q)) ∧
    (∀ web academic,
        failing_check text_C 5%nat = Ok web →
        one_source text_C 5%nat = Ok academic →
        Submissions.web_sources o = or_none web ∧
        Submissions.academic_sources o = or_none academic ∧
        Submissions.plagerism_score o
        = Some (raise_to_sources
                  (raise_to_sources (round2 (best * 100)%Q) web) academic)).
Proof.
  apply (lookup_failure_isolated str_decimal failing_check one_source
           sample_contents sample_submissions [] 2 (graded "C" text_C 70)
           text_C).
  - simpl. lia.
  - reflexivity.
  - split; reflexivity.
Defined.

Lemma plagiarism_score_maximum_witness :
  ∃ outs log',
    evaluate str_decimal (check_web_sources offline_world)
      (check_academic_sources offline_world) sample_contents
      sample_submissions [] = (Ok outs, log') ∧
    Forall2 (score_is_maximum offline_world sample_contents)
      sample_submissions outs.
Proof.
  apply (plagiarism_score_maximum str_decimal offline_world sample_contents
           sample_submissions []).
  simpl. lia.
Defined.

(** ** Where the pass does less than stated *)

(** C3, as stated, fails: when A is the only submission of the assignment,
    the pass returns without calling either check, although the knowledge
    base holds the text of A word for word and the academic check would
    return it at 100 per cent. *)
Lemma degenerate_pass_skips_lookups :
  ∃ o found,
    check_plagiarism str_decimal (one_document_world text_A) single_storage
      (state_of [graded "A" text_A 90]) [] = (Ok [o], []) ∧
    has_text (graded "A" text_A 90) text_A ∧
    check_academic_sources (one_document_world text_A) text_A 5%nat
    = Ok [found] ∧
    SourceMatch.similarity found = (10000 # 100)%Q ∧
    Submissions.plagerism_score o = Some 0%Q ∧
    Submissions.web_sources o = None ∧
    Submissions.academic_sources o = None.
Proof.
  eexists _, _. split; [vm_compute; reflexivity |].
  split; [split; reflexivity |].
  split; [vm_compute; reflexivity |].
  repeat split.
Qed.

(** C2, as stated, fails: when only the file of B can be downloaded, A,
    whose text is the text of B, is returned with score 0.0, while its best
    pairwise similarity against the other submission is 1. *)
Lemma plagiarism_score_degenerate :
  download_all flaky_storage sample_rows [] = [("B", text_A)] ∧
  ∃ o,
    check_plagiarism str_decimal offline_world flaky_storage
      (state_of [graded "A" text_A 90]) [] = (Ok [o], []) ∧
    Submissions.plagerism_score o = Some 0%Q ∧
    ¬ score_is_maximum offline_world [("B", text_A)] (graded "A" text_A 90) o.
Proof.
  split; [reflexivity |].
  exists (without_plagiarism (graded "A" text_A 90)).
  split; [vm_compute; reflexivity |]. split; [reflexivity |].
  intros H.
  destruct (H text_A)
    as (best & web & academic & p & [Hall _] & _ & _ & _ & _ & Hp & E);
    [split; reflexivity |].
  injection Hp as <-.
  assert (Hj : jaccard text_A text_A = (4 # 4)%Q) by (vm_compute; reflexivity).
  assert (H1 : (1 <= best)%Q).
  { apply Qle_trans with (jaccard text_A text_A);
      [rewrite Hj; discriminate |].
    apply (Hall "B" text_A); [left | discriminate]. }
  assert (H100 : (100 <= Qmax (best * 100)
                          (Qmax (max_similarity_of web)
                                (max_similarity_of academic)))%Q).
  { apply Qle_trans with (best * 100)%Q; [| apply Q.le_max_l].
    apply (Qmult_le_compat_r 1 best 100 H1). discriminate. }
  apply round2_mono in H100. rewrite <- E in H100.
  assert (E100 : round2 100%Q = (10000 # 100)%Q) by reflexivity.
  rewrite E100 in H100. apply H100. reflexivity.
Qed.

(** * Further properties *)

(** ** The similarity as a measure on word sets *)

(** X1. The similarity is symmetric on every pair of inputs: exchanging the
    two texts gives the same value, or the same exception when one of them
    is [None]. *)
Theorem calculate_text_similarity_sym (text1 text2 : option string) :
  calculate_text_similarity text1 text2 = calculate_text_similarity text2 text1.
Proof.
  destruct text1 as [a|], text2 as [b|]; try reflexivity.
  rewrite !calculate_text_similarity_jaccard, jaccard_sym. reflexivity.
Qed.

Lemma lower_char_idem (c : ascii) : lower_char (lower_char c) = lower_char c.
Proof. destruct c as [[] [] [] [] [] [] [] []]; reflexivity. Qed.

Lemma lower_idem (s : string) : lower (lower s) = lower s.
Proof.
  induction s as [|c s IH]; simpl; [reflexivity |].
  rewrite lower_char_idem, IH. reflexivity.
Qed.

Lemma lower_app (a b : string) : lower (a ++ b) = lower a ++ lower b.
Proof.
  induction a as [|c a IH]; [reflexivity |].
  change (String (lower_char c) (lower (a ++ b))
          = String (lower_char c) (lower a ++ lower b)).
  f_equal. exact IH.
Qed.

Lemma word_set_lower (s : string) : word_set (lower s) = word_set s.
Proof. unfold word_set. rewrite lower_idem. reflexivity. Qed.

(** X2. Letter case is ignored: lower-casing either text, as the two
    source checks do before they call it, does not change the similarity. *)
Theorem calculate_text_similarity_lower (text1 text2 : string) :
  calculate_text_similarity (Some (lower text1)) (Some (lower text2))
  = calculate_text_similarity (Some text1) (Some text2) ∧
  calculate_text_similarity (Some (lower text1)) (Some text2)
  = calculate_text_similarity (Some text1) (Some text2).
Proof.
  rewrite !calculate_text_similarity_str, !word_set_lower. split; reflexivity.
Qed.

Lemma flush_app (cur : list ascii) (rest : list string) :
  flush cur rest = (flush cur [] ++ rest)%list.
Proof. destruct cur; reflexivity. Qed.

Lemma split_from_app (a b : string) (cur : list ascii) :
  split_from cur (a ++ String " " b) = (split_from cur a ++ split b)%list.
Proof.
  revert cur. induction a as [|c a IH]; intros cur.
  - change (flush cur (split_from [] b) = (flush cur [] ++ split b)%list).
    apply flush_app.
  - change (split_from cur (String c (a ++ String " " b))
            = (split_from cur (String c a) ++ split b)%list).
    simpl. destruct (is_whitespace c); [| apply IH].
    rewrite IH, (flush_app cur (split_from [] a)), (flush_app cur (_ ++ _)).
    rewrite app_assoc. reflexivity.
Qed.

Lemma word_set_app (a b : string) :
  word_set (a ++ " " ++ b) = word_set a ∪ word_set b.
Proof.
  unfold word_set. rewrite lower_app.
  change (lower (" " ++ b)) with (String " " (lower b)).
  unfold split at 1. rewrite split_from_app.
  apply set_eq. intros w.
  rewrite elem_of_union, !elem_of_list_to_set, elem_of_app. reflexivity.
Qed.

(** X3. Only the set of words counts: joining two texts with a blank gives
    the union of their words, so the order of the parts and the repetition
    of a text do not change the similarity with any other text. *)
Theorem calculate_text_similarity_words (a b other : string) :
  word_set (a ++ " " ++ b) = word_set a ∪ word_set b ∧
  calculate_text_similarity (Some (a ++ " " ++ b)) (Some other)
  = calculate_text_similarity (Some (b ++ " " ++ a)) (Some other) ∧
  calculate_text_similarity (Some (a ++ " " ++ a)) (Some other)
  = calculate_text_similarity (Some a) (Some other).
Proof.
  split; [apply word_set_app |].
  rewrite !calculate_text_similarity_str, !word_set_app.
  assert (Ec : word_set a ∪ word_set b = word_set b ∪ word_set a)
    by set_solver.
  assert (Ei : word_set a ∪ word_set a = word_set a) by set_solver.
  rewrite Ec, Ei. split; reflexivity.
Qed.

(** ** The sources returned by the two checks *)

Lemma above_cutoff_range (text : string) (s : SourceMatch.t) :
  above_cutoff text s → (10 <= SourceMatch.similarity s <= 100)%Q.
Proof.
  intros (candidate & _ & E & H10). split; [exact H10 |].
  rewrite E.
  assert (E100 : round2 100%Q = (10000 # 100)%Q) by reflexivity.
  apply Qle_trans with (round2 100%Q); [| rewrite E100; discriminate].
  apply round2_mono.
  pose proof (jaccard_bounds (lower text) (lower candidate)) as [_ H1].
  apply (Qmult_le_compat_r _ 1 100 H1). discriminate.
Qed.

Lemma length_prefix (n : nat) (s : string) :
  (String.length (prefix n s) ≤ n)%nat.
Proof.
  unfold prefix. revert s. induction n as [|n IH]; intros [|c s]; simpl;
    try lia.
  specialize (IH s). lia.
Qed.

Lemma serp_matches_sources (text : string) (results : list serp_result)
    (l : list SourceMatch.t) :
  serp_matches text results = Ok l →
  (length l ≤ length results)%nat ∧ Forall web_source l.
Proof.
  revert l. induction results as [|r rest IH]; intros l; simpl.
  - intros [= <-]. split; [reflexivity | constructor].
  - destruct (truthy (link r)) eqn:Eu.
    + unfold mbind, outcome_bind at 1.
      rewrite calculate_text_similarity_jaccard.
      destruct (serp_matches text rest) as [tail|]; simpl; [| discriminate].
      destruct (IH tail eq_refl) as [Hlen HF].
      destruct (gt _ _); intros [= <-].
      * split; [simpl; lia |]. constructor; [| exact HF].
        split; [exact Eu |]. eexists. split; [reflexivity |].
        destruct (truthy (serp_snippet r)); apply length_prefix.
      * split; [lia | exact HF].
    + intros H. destruct (IH l H). split; [lia | assumption].
Qed.

Lemma ddg_matches_sources (text : string) (results : list ddg_result)
    (l : list SourceMatch.t) :
  ddg_matches text results = Ok l →
  (length l ≤ length results)%nat ∧ Forall web_source l.
Proof.
  revert l. induction results as [|r rest IH]; intros l; simpl.
  - intros [= <-]. split; [reflexivity | constructor].
  - destruct (truthy (href r)) eqn:Eu; simpl.
    + destruct (truthy (link_text r)).
      * unfold mbind, outcome_bind at 1.
        rewrite calculate_text_similarity_jaccard.
        destruct (ddg_matches text rest) as [tail|]; simpl; [| discriminate].
        destruct (IH tail eq_refl) as [Hlen HF].
        destruct (gt _ _); intros [= <-].
        -- split; [simpl; lia |]. constructor; [| exact HF].
           split; [exact Eu |]. eexists. split; [reflexivity |].
           apply length_prefix.
        -- split; [lia | exact HF].
      * intros H. destruct (IH l H). split; [lia | assumption].
    + intros H. destruct (IH l H). split; [lia | assumption].
Qed.

(** X4. The web check returns at most [max_results] sources; each has a
    non-empty URL, a snippet of at most 200 characters and a similarity
    between 10 and 100. *)
Theorem check_web_sources_bounded (w : world) (text : string)
    (max_results : nat) :
  ∃ web,
    check_web_sources w text max_results = Ok web ∧
    (length web ≤ max_results)%nat ∧
    Forall (λ s, web_source s ∧ (10 <= SourceMatch.similarity s <= 100)%Q) web.
Proof.
  destruct (check_web_sources_cutoff w text max_results) as (web & E & Hcut).
  exists web. split; [exact E |].
  assert (Hrange : Forall (λ s, (10 <= SourceMatch.similarity s <= 100)%Q) web).
  { eapply Forall_impl; [exact Hcut |]. intros s. apply above_cutoff_range. }
  enough ((length web ≤ max_results)%nat ∧ Forall web_source web) as [Hl Hs].
  { split; [exact Hl |]. apply Forall_and. split; assumption. }
  clear Hcut Hrange. unfold check_web_sources in E.
  destruct (serp_sources w text max_results) as [l|] eqn:Es.
  - injection E as <-. unfold serp_sources in Es.
    destruct (serpapi_key w); [| discriminate].
    destruct (truthy _); [| discriminate].
    destruct (serpapi w text) as [response|]; [| discriminate].
    destruct (_ =? _)%nat; [| discriminate].
    destruct (organic_results response) as [results|].
    + destruct (serp_matches text (take max_results results)) as [l'|] eqn:El;
        [| discriminate].
      injection Es as <-.
      destruct (serp_matches_sources _ _ _ El) as [Hlen HF].
      split; [| exact HF]. rewrite length_take in Hlen. lia.
    + injection Es as <-. split; [simpl; lia | constructor].
  - injection E as <-. unfold ddg_sources.
    destruct (duckduckgo w text) as [response|];
      [| split; [simpl; lia | constructor]].
    destruct (_ =? _)%nat; [| split; [simpl; lia | constructor]].
    destruct (ddg_results response) as [results|];
      [| split; [simpl; lia | constructor]].
    destruct (ddg_matches text (take max_results results)) as [l'|] eqn:El;
      [| split; [simpl; lia | constructor]].
    destruct (ddg_matches_sources _ _ _ El) as [_ HF].
    split; [rewrite length_take; lia | apply Forall_take, HF].
Qed.

(** ** The range of the plagiarism score *)

Lemma raise_to_sources_range (p : float) (sources : list SourceMatch.t) :
  (0 <= p <= 100)%Q →
  Forall (λ s, (10 <= SourceMatch.similarity s <= 100)%Q) sources →
  (0 <= raise_to_sources p sources <= 100)%Q.
Proof.
  intros Hp HF.
  destruct (raise_to_sources_cases p sources) as [-> | (s & Hs & ->)];
    [exact Hp |].
  rewrite Forall_forall in HF. destruct (HF s Hs) as [H10 H100].
  split; [| exact H100]. eapply Qle_trans; [| exact H10]. discriminate.
Qed.

Lemma internal_percentage_range (current_id text : string)
    (contents : list (string * string)) :
  (0 <= round2 (best_similarity current_id text contents 0 * 100) <= 100)%Q.
Proof.
  destruct (best_similarity_bounds current_id text contents) as [H0 H1].
  split.
  - apply round2_nonneg.
    apply (Qmult_le_compat_r 0 _ 100 H0). discriminate.
  - assert (E100 : round2 100%Q = (10000 # 100)%Q) by reflexivity.
    apply Qle_trans with (round2 100%Q); [| rewrite E100; discriminate].
    apply round2_mono. apply (Qmult_le_compat_r _ 1 100 H1). discriminate.
Qed.

(** X5. With the two checks of the module, every submission returned by
    the pass carries a plagiarism score between 0 and 100. *)
Theorem plagiarism_score_range (str_float : float → string) (w : world)
    (contents : list (string * string)) (subs : list Submissions.t)
    (log : list event) :
  ∃ outs log',
    evaluate str_float (check_web_sources w) (check_academic_sources w)
      contents subs log = (Ok outs, log') ∧
    Forall (λ o, ∃ p, Submissions.plagerism_score o = Some p
                      ∧ (0 <= p <= 100)%Q) outs.
Proof.
  assert (Hzero : ∀ s, ∃ p,
            Submissions.plagerism_score (without_plagiarism s) = Some p
            ∧ (0 <= p <= 100)%Q).
  { intros s. exists 0%Q. split; [reflexivity | split; discriminate]. }
  destruct (evaluate_returns str_float (check_web_sources w)
              (check_academic_sources w) contents subs log)
    as (outs & log' & E & [-> | ->]);
    eexists _, log'; (split; [exact E |]); apply Forall_forall;
    intros o (s & -> & _)%list_elem_of_fmap; [apply Hzero |].
  unfold result_of.
  destruct (Submissions.file_content s) as [text|]; [| apply Hzero].
  destruct (truthy text); [| apply Hzero].
  eexists. split; [reflexivity |]. unfold score_of.
  destruct (check_web_sources_cutoff w text 5) as (web & -> & Hw).
  destruct (check_academic_sources_cutoff w text 5) as (academic & -> & Ha).
  simpl. apply raise_to_sources_range; [apply raise_to_sources_range |].
  - apply internal_percentage_range.
  - eapply Forall_impl; [exact Hw |]. intros x. apply above_cutoff_range.
  - eapply Forall_impl; [exact Ha |]. intros x. apply above_cutoff_range.
Qed.

(** ** What triggers the override *)

Section Detection.

Variable str_float : float → string.
Variable web_check academic_check : string → nat → outcome (list SourceMatch.t).

Lemma score_of_ge_internal (best : float) (web academic : list SourceMatch.t) :
  (round2 (best * 100) <= score_of best web academic)%Q.
Proof.
  unfold score_of.
  destruct (raise_to_sources_bounds (round2 (best * 100)%Q) web) as [Hw _].
  destruct (raise_to_sources_bounds
              (raise_to_sources (round2 (best * 100)%Q) web) academic)
    as [Ha _].
  eapply Qle_trans; eauto.
Qed.

(** X6. In a pass over at least two downloaded contents, a submission whose
    text has, with the content of a submission of another id, a similarity
    whose percentage exceeds 40 is returned with the grade 0.0, and its
    score is at least that percentage. *)
Theorem peer_match_detected (contents : list (string * string))
    (subs : list Submissions.t) (log : list event) (i : nat)
    (s : Submissions.t) (text other_id other_text : string) :
  (2 ≤ length contents)%nat →
  subs !! i = Some s →
  has_text s text →
  (other_id, other_text) ∈ contents →
  other_id ≠ Submissions.submission_id s →
  (PLAGIARISM_THRESHOLD < round2 (jaccard text other_text * 100))%Q →
  ∃ outs log' o p reason,
    evaluate str_float web_check academic_check contents subs log
    = (Ok outs, log') ∧
    outs !! i = Some o ∧
    Submissions.plagerism_score o = Some p ∧
    (round2 (jaccard text other_text * 100) <= p)%Q ∧
    Submissions.total_score o = Some (RubricGrade.mk 0 reason).
Proof.
  intros Hlen Hi Ht Hin Hne Hover. rewrite evaluate_closed.
  apply Nat.ltb_ge in Hlen. rewrite Hlen.
  eexists _, _, _, _, _. split; [reflexivity |].
  split; [rewrite list_lookup_fmap, Hi; reflexivity |].
  rewrite (result_of_text _ _ _ contents s text Ht). unfold evaluated.
  simpl. split; [reflexivity |].
  set (best := best_similarity (Submissions.submission_id s) text contents 0%Q).
  assert (Hp : (round2 (jaccard text other_text * 100)
                <= score_of best (sources_of (web_check text 5%nat))
                     (sources_of (academic_check text 5%nat)))%Q).
  { eapply Qle_trans; [| apply score_of_ge_internal].
    apply round2_mono.
    destruct (best_similarity_pairwise (Submissions.submission_id s) text
                contents) as [Hall _].
    apply Qmult_le_compat_r; [| discriminate].
    exact (Hall other_id other_text Hin Hne). }
  split; [exact Hp |].
  rewrite grade_over; [reflexivity |].
  eapply Qlt_le_trans; eauto.
Qed.

(** X7. The pass sets no score above the threshold without evidence: a
    returned score above 40 is the percentage of the similarity with the
    content of a submission of another id, or the similarity of a web
    source or of an academic source attached to the result. *)
Theorem override_has_evidence (contents : list (string * string))
    (subs outs : list Submissions.t) (log log' : list event) (i : nat)
    (s o : Submissions.t) (p : float) :
  evaluate str_float web_check academic_check contents subs log
  = (Ok outs, log') →
  subs !! i = Some s →
  outs !! i = Some o →
  Submissions.plagerism_score o = Some p →
  (PLAGIARISM_THRESHOLD < p)%Q →
  ∃ text,
    has_text s text ∧
    ((∃ other_id other_text,
        (other_id, other_text) ∈ contents ∧
        other_id ≠ Submissions.submission_id s ∧
        p = round2 (jaccard text other_text * 100)%Q) ∨
     (∃ web source,
        Submissions.web_sources o = Some web ∧ source ∈ web ∧
        p = SourceMatch.similarity source) ∨
     (∃ academic source,
        Submissions.academic_sources o = Some academic ∧
        source ∈ academic ∧ p = SourceMatch.similarity source)).
Proof.
  intros E Hi Ho Hp Hover. rewrite evaluate_closed in E.
  assert (Hzero : o = without_plagiarism s → False).
  { intros ->. injection Hp as <-. discriminate Hover. }
  destruct (_ <? _)%nat; injection E as <- <-;
    rewrite list_lookup_fmap, Hi in Ho; injection Ho as <-;
    [exfalso; apply Hzero; reflexivity |].
  unfold result_of in *.
  destruct (Submissions.file_content s) as [text|] eqn:Ec;
    [| exfalso; apply Hzero; reflexivity].
  destruct (truthy text) eqn:Et; [| exfalso; apply Hzero; reflexivity].
  exists text. split; [split; assumption |].
  clear Hzero. unfold evaluated in *. simpl in *. injection Hp as <-.
  unfold score_of in *.
  set (web := sources_of (web_check text 5%nat)) in *.
  set (academic := sources_of (academic_check text 5%nat)) in *.
  set (best := best_similarity (Submissions.submission_id s) text contents
                 0%Q) in *.
  destruct (raise_to_sources_cases
              (raise_to_sources (round2 (best * 100)%Q) web) academic)
    as [Ea | (source & Hs & Ea)].
  - rewrite Ea in *.
    destruct (raise_to_sources_cases (round2 (best * 100)%Q) web)
      as [Ew | (source & Hs & Ew)].
    + rewrite Ew in *. left.
      destruct (best_similarity_invariant (Submissions.submission_id s) text
                  contents 0%Q) as (_ & _ & [E0 | Hatt]);
        [apply Qle_refl | |].
      * exfalso. fold best in E0. rewrite E0 in Hover. discriminate Hover.
      * destruct Hatt as (oid & oc & Hin & Hne & Eb).
        exists oid, oc. fold best in Eb. rewrite <- Eb. auto.
    + right. left. exists web, source.
      split; [| split; [exact Hs | exact Ew]].
      destruct web; [inversion Hs | reflexivity].
  - right. right. exists academic, source.
    split; [| split; [exact Hs | exact Ea]].
    destruct academic; [inversion Hs | reflexivity].
Qed.

End Detection.

(** ** The downloaded contents *)

Lemma dict_set_elem (d : list (string * string)) (k v k' v' : string) :
  (k', v') ∈ dict_set d k v → (k', v') ∈ d ∨ (k' = k ∧ v' = v).
Proof.
  induction d as [|[k0 v0] d IH]; simpl.
  - intros [[= -> ->] | H]%elem_of_cons; [auto | inversion H].
  - destruct (String.eqb k0 k) eqn:E.
    + apply String.eqb_eq in E as ->.
      intros [[= -> ->] | H]%elem_of_cons; [auto |].
      left. right. exact H.
    + intros [[= -> ->] | H]%elem_of_cons; [left; left |].
      destruct (IH H) as [H' | H']; [left; right; exact H' | auto].
Qed.

Lemma dict_set_keys (d : list (string * string)) (k v : string) :
  (k ∈ d.*1 → (dict_set d k v).*1 = d.*1) ∧
  (k ∉ d.*1 → (dict_set d k v).*1 = (d.*1 ++ [k])%list).
Proof.
  induction d as [|[k0 v0] d [IHin IHout]].
  - split; [intros H; inversion H | reflexivity].
  - change (dict_set ((k0, v0) :: d) k v)
      with (if String.eqb k0 k then (k0, v) :: d
            else (k0, v0) :: dict_set d k v).
    destruct (String.eqb k0 k) eqn:E; rewrite !fmap_cons; cbn [fst].
    + apply String.eqb_eq in E as ->. split; [reflexivity |].
      intros H. exfalso. apply H. left.
    + apply String.eqb_neq in E. split.
      * intros [-> | H]%elem_of_cons; [congruence |].
        rewrite IHin by exact H. reflexivity.
      * intros H. rewrite IHout; [reflexivity |].
        intros H'. apply H. right. exact H'.
Qed.

Lemma dict_set_NoDup (d : list (string * string)) (k v : string) :
  NoDup d.*1 → NoDup (dict_set d k v).*1.
Proof.
  intros Hd. destruct (dict_set_keys d k v) as [Hin Hout].
  destruct (decide (k ∈ d.*1)) as [H | H].
  - rewrite Hin by exact H. exact Hd.
  - rewrite Hout by exact H. apply NoDup_app. split; [exact Hd |].
    split; [| apply NoDup_singleton].
    intros x Hx [-> | Hnil]%elem_of_cons; [contradiction | inversion Hnil].
Qed.

Lemma dict_set_key (d : list (string * string)) (k v : string) :
  k ∈ (dict_set d k v).*1.
Proof.
  destruct (dict_set_keys d k v) as [Hin Hout].
  destruct (decide (k ∈ d.*1)) as [H | H].
  - rewrite Hin by exact H. exact H.
  - rewrite Hout by exact H. apply elem_of_app. right. left.
Qed.

Lemma dict_set_keys_mono (d : list (string * string)) (k v k' : string) :
  k' ∈ d.*1 → k' ∈ (dict_set d k v).*1.
Proof.
  intros H'. destruct (dict_set_keys d k v) as [Hin Hout].
  destruct (decide (k ∈ d.*1)) as [H | H].
  - rewrite Hin by exact H. exact H'.
  - rewrite Hout by exact H. apply elem_of_app. left. exact H'.
Qed.

Lemma download_all_invariant (st : storage) (rows all : list Row.t)
    (d : list (string * string)) :
  rows ⊆ all →
  NoDup d.*1 →
  (∀ k v, (k, v) ∈ d →
          ∃ row, row ∈ all ∧ Row.id row = k ∧ downloadable st row v) →
  NoDup (download_all st rows d).*1 ∧
  (∀ k v, (k, v) ∈ download_all st rows d →
          ∃ row, row ∈ all ∧ Row.id row = k ∧ downloadable st row v) ∧
  (∀ k, k ∈ d.*1 → k ∈ (download_all st rows d).*1) ∧
  (∀ row text, row ∈ rows → downloadable st row text →
               Row.id row ∈ (download_all st rows d).*1).
Proof.
  revert d. induction rows as [|row rest IH]; intros d Hsub Hd Hfrom; simpl.
  - split; [exact Hd |]. split; [exact Hfrom |]. split; [auto |].
    intros row text H. inversion H.
  - assert (Hrest : rest ⊆ all) by (intros x Hx; apply Hsub; right; exact Hx).
    assert (Hrow : row ∈ all) by (apply Hsub; left).
    assert (Hskip :
      (∀ text, ¬ downloadable st row text) →
      NoDup (download_all st rest d).*1 ∧
      (∀ k v, (k, v) ∈ download_all st rest d →
              ∃ row, row ∈ all ∧ Row.id row = k ∧ downloadable st row v) ∧
      (∀ k, k ∈ d.*1 → k ∈ (download_all st rest d).*1) ∧
      (∀ row0 text, row0 ∈ row :: rest → downloadable st row0 text →
                    Row.id row0 ∈ (download_all st rest d).*1)).
    { intros Hno. destruct (IH d Hrest Hd Hfrom) as (H1 & H2 & H3 & H4).
      repeat split; try assumption.
      intros row0 text [-> | Hin]%elem_of_cons Hdl; [| eauto].
      exfalso. exact (Hno text Hdl). }
    destruct (Row.file_url row) as [file_url|] eqn:Eu;
      [| apply Hskip; intros text (u & Hu & _); rewrite Eu in Hu; discriminate].
    destruct (truthy file_url) eqn:Et;
      [| apply Hskip; intros text (u & Hu & Htu & _);
         rewrite Eu in Hu; injection Hu as <-; congruence].
    destruct (http_get st file_url) as [text|e] eqn:Eh;
      [| apply Hskip; intros text (u & Hu & _ & Hg);
         rewrite Eu in Hu; injection Hu as <-; congruence].
    assert (Hdl : downloadable st row text) by (exists file_url; auto).
    destruct (IH (dict_set d (Row.id row) text) Hrest)
      as (H1 & H2 & H3 & H4).
    + apply dict_set_NoDup, Hd.
    + intros k v [H | [-> ->]]%dict_set_elem; eauto.
    + split; [exact H1 |]. split; [exact H2 |]. split.
      * intros k Hk. apply H3, dict_set_keys_mono, Hk.
      * intros row0 text0 [-> | Hin]%elem_of_cons Hdl0; [| eauto].
        apply H3, dict_set_key.
Qed.

(** X8. The contents downloaded for an assignment hold each submission id
    at most once; every entry is the text downloaded from the URL of a row
    with that id, and every row whose file can be downloaded has an
    entry. There are no more entries than rows. *)
Theorem download_all_entries (st : storage) (rows : list Row.t) :
  NoDup (download_all st rows []).*1 ∧
  (∀ k v, (k, v) ∈ download_all st rows [] →
          ∃ row, row ∈ rows ∧ Row.id row = k ∧ downloadable st row v) ∧
  (∀ row text, row ∈ rows → downloadable st row text →
               Row.id row ∈ (download_all st rows []).*1) ∧
  (length (download_all st rows []) ≤ length rows)%nat.
Proof.
  destruct (download_all_invariant st rows rows []) as (H1 & H2 & _ & H4).
  - intros x Hx. exact Hx.
  - constructor.
  - intros k v H. inversion H.
  - split; [exact H1 |]. split; [exact H2 |]. split; [exact H4 |].
    rewrite <- (length_fmap fst (download_all st rows [])),
            <- (length_fmap Row.id rows).
    apply submseteq_length, NoDup_submseteq; [exact H1 |].
    intros k Hk. apply list_elem_of_fmap in Hk as ([k' v] & -> & Hkv).
    destruct (H2 k' v Hkv) as (row & Hrow & <- & _).
    exact (list_elem_of_fmap_2 Row.id rows row Hrow).
Qed.

(** ** Grading *)

Lemma clamp_grade_finite (x : float) :
  ∃ y, clamp_grade (Finite x) = Finite y ∧
       (0 <= y <= 100)%Q ∧ (y == Qmax 0 (Qmin 100 x))%Q.
Proof.
  unfold clamp_grade, float_max, float_min, float_lt.
  destruct (gt 0%Q x) eqn:E0; simpl.
  - apply gt_spec in E0.
    assert (E100 : gt 100%Q x = true) by (apply gt_spec; lra).
    rewrite E100.
    assert (Ex : gt x 0%Q = false) by (apply gt_false; lra).
    rewrite Ex. exists 0%Q. split; [reflexivity |].
    split; [split; discriminate |].
    rewrite Q.min_r, Q.max_l by lra. reflexivity.
  - apply gt_false in E0. destruct (gt x 100%Q) eqn:E1.
    + apply gt_spec in E1.
      assert (E100 : gt 100%Q x = false) by (apply gt_false; lra).
      rewrite E100.
      assert (Ex : gt 100%Q 0%Q = true) by reflexivity.
      rewrite Ex. exists 100%Q. split; [reflexivity |].
      split; [split; discriminate |].
      rewrite Q.min_l, Q.max_r by lra. reflexivity.
    + apply gt_false in E1. exists x. split; [reflexivity |].
      split; [split; assumption |].
      rewrite Q.min_r, Q.max_r by lra. reflexivity.
Qed.

(** The float stored is a number between 0 and 100 or [nan], and it is
    [nan] only when the float obtained from the model is. *)
Lemma clamp_grade_cases (grade_float : pyfloat) :
  (clamp_grade grade_float = NaN ∧ grade_float = NaN) ∨
  ∃ y, clamp_grade grade_float = Finite y ∧ (0 <= y <= 100)%Q.
Proof.
  destruct grade_float as [x| | |].
  - right. destruct (clamp_grade_finite x) as (y & E & Hy & _). eauto.
  - left. split; reflexivity.
  - right. exists 100%Q. split; [reflexivity | split; discriminate].
  - right. exists 0%Q. split; [reflexivity | split; discriminate].
Qed.

Lemma truthy_nonempty (s : string) : truthy s = true → s ≠ "".
Proof. intros H ->. discriminate H. Qed.

Lemma reason_of_nonempty (reason_text : json) (reason : string) :
  reason_of reason_text = inr reason → reason ≠ "".
Proof.
  unfold reason_of. destruct (json_truthy reason_text) eqn:E;
    [| intros [= <-]; discriminate].
  destruct reason_text; try discriminate.
  intros [= <-]. apply truthy_nonempty, E.
Qed.

Section GradingFacts.

Variable float_of_str : string → option pyfloat.
Variable chain_invoke :
  option string → option string → string → grading_error + llm_result.

(** What a grade built by [grade_text] comes from. *)
Lemma grade_text_inr (questions rubric : option string) (text : string)
    (g : LlmGrade.t) :
  grade_text float_of_str chain_invoke questions rubric text = inr g →
  ∃ result grade reason_text grade_float,
    chain_invoke questions rubric text = inr result ∧
    result_fields result = inr (grade, reason_text) ∧
    float_of_grade float_of_str grade = inr grade_float ∧
    reason_of reason_text = inr (LlmGrade.reason g) ∧
    LlmGrade.total_score g = clamp_grade grade_float.
Proof.
  unfold grade_text.
  destruct (chain_invoke questions rubric text) as [e|result] eqn:Ech;
    [discriminate |].
  destruct (result_fields result) as [e|[grade reason_text]] eqn:Ef;
    [discriminate |].
  destruct (debug_reason reason_text); [discriminate |].
  destruct (float_of_grade float_of_str grade) as [e|x] eqn:Eg;
    [discriminate |].
  destruct (reason_of reason_text) as [e|reason] eqn:Er; [discriminate |].
  intros [= <-]. exists result, grade, reason_text, x. auto.
Qed.

Lemma grade_text_stored (questions rubric : option string) (text : string)
    (g : LlmGrade.t) :
  grade_text float_of_str chain_invoke questions rubric text = inr g →
  stored_grade g.
Proof.
  intros (result & grade & reason_text & grade_float & _ & _ & _ & Er & Eg)
    %grade_text_inr.
  split; [| eapply reason_of_nonempty, Er].
  rewrite Eg.
  destruct (clamp_grade_cases grade_float) as [[-> _] | (y & -> & Hy)];
    [exact I | exact Hy].
Qed.

Lemma grade_one_graded_from (questions rubric : option string)
    (s : Submissions.t) :
  graded_from s (grade_one float_of_str chain_invoke questions rubric s).
Proof.
  unfold grade_one.
  destruct (Submissions.file_content s) as [text|] eqn:Ec; [| left; reflexivity].
  destruct (truthy text) eqn:Et; [| left; reflexivity]. simpl.
  destruct (grade_text float_of_str chain_invoke questions rubric text)
    as [e|g] eqn:Eg; [left; reflexivity |].
  right. simpl. do 3 (split; [auto |]). split; [reflexivity |].
  exists text, g. split; [split; assumption |].
  split; [reflexivity |]. eapply grade_text_stored, Eg.
Qed.

Lemma grade_submissions_cases (state : GradingState.t)
    (subs : list Submissions.t) :
  GradingState.submission_ids state = Some subs →
  ((GradingState.questions state = None ∨ GradingState.rubric state = None) ∧
   grade_submissions float_of_str chain_invoke state = Ok (map kept subs)) ∨
  ∃ questions rubric,
    GradingState.questions state = Some questions ∧
    GradingState.rubric state = Some rubric ∧
    grade_submissions float_of_str chain_invoke state
    = Ok (map (grade_one float_of_str chain_invoke questions rubric) subs).
Proof.
  intros Hs. unfold grade_submissions. rewrite Hs. simpl.
  destruct (GradingState.questions state) as [questions|]; [| left; auto].
  destruct (GradingState.rubric state) as [rubric|]; [| left; auto].
  right. exists questions, rubric. auto.
Qed.

(** X9. [grade_submissions] returns one submission per input, in order;
    each is the input itself, or the input with the same id, URL, content
    and plagiarism score and a new grade, which is a number between 0 and
    100 or [nan], with a non-empty reason. When the key [questions] or the
    key [rubric] is missing from the state, every submission is returned as
    it is. *)
Theorem grade_submissions_valid (state : GradingState.t)
    (subs : list Submissions.t) :
  GradingState.submission_ids state = Some subs →
  ∃ outs,
    grade_submissions float_of_str chain_invoke state = Ok outs ∧
    Forall2 graded_from subs outs ∧
    (GradingState.questions state = None ∨ GradingState.rubric state = None →
     outs = map kept subs).
Proof.
  intros Hs.
  destruct (grade_submissions_cases state subs Hs)
    as [[Hmissing E] | (questions & rubric & Hq & Hr & E)]; rewrite E; eexists;
    (split; [reflexivity |]); split.
  - apply Forall2_map_self. intros s. left. reflexivity.
  - reflexivity.
  - apply Forall2_map_self, grade_one_graded_from.
  - intros [H | H]; congruence.
Qed.

Lemma grade_text_ungradable (questions rubric : option string)
    (s : Submissions.t) (text : string) :
  has_text s text →
  ungradable float_of_str chain_invoke questions rubric s →
  ∃ e, grade_text float_of_str chain_invoke questions rubric text = inl e.
Proof.
  intros [Ec Et] [Hf | (text' & [Ec' _] & H)].
  { rewrite Ec in Hf. destruct text; discriminate. }
  assert (text' = text) as -> by congruence.
  unfold grade_text.
  destruct H as [[e ->] | [-> | (fields & -> & H)]]; simpl; [eauto.. |].
  destruct (fields !! "reason") as [reason_text|] eqn:Er.
  2: { destruct (fields !! "total_score"); eauto. }
  destruct H as [H | [H | [H | [[items H] | [(word & H & Hw) | (n & H & Hn)]]]]];
    try discriminate H; rewrite H; eauto;
    destruct (debug_reason reason_text); eauto; simpl.
  - rewrite Hw. eauto.
  - apply Z.ltb_ge in Hn. rewrite Hn. eauto.
Qed.

(** X10. A submission for which no grade can be built is returned as it
    is, and the loop goes on: this holds for a submission without text,
    whatever the chain would answer, and for a submission with text when
    the chain raises, answers neither a dict nor a [RubricGrade], or
    answers a dict that lacks [reason] or whose [total_score] is missing,
    null, a list, a string that is no number, or an integer too large for
    a double. *)
Theorem grade_submissions_isolated (state : GradingState.t)
    (subs : list Submissions.t) (questions rubric : option string)
    (i : nat) (s : Submissions.t) :
  GradingState.submission_ids state = Some subs →
  GradingState.questions state = Some questions →
  GradingState.rubric state = Some rubric →
  subs !! i = Some s →
  ungradable float_of_str chain_invoke questions rubric s →
  ∃ outs,
    grade_submissions float_of_str chain_invoke state = Ok outs ∧
    length outs = length subs ∧
    outs !! i = Some (kept s).
Proof.
  intros Hs Hq Hr Hi Hu. unfold grade_submissions. rewrite Hs, Hq, Hr. simpl.
  eexists. split; [reflexivity |]. split; [apply length_map |].
  rewrite list_lookup_fmap, Hi. simpl. f_equal. unfold grade_one.
  destruct (Submissions.file_content s) as [text|] eqn:Ec; [| reflexivity].
  destruct (truthy text) eqn:Et; [| reflexivity]. simpl.
  destruct (grade_text_ungradable questions rubric s text) as [e ->];
    [split; assumption | exact Hu | reflexivity].
Qed.

(** X11. When the chain answers a dict with a number as [total_score] and a
    string as [reason], the submission is returned with the reason itself,
    or "No reason provided" when it is empty, without source lists, and
    with a score that depends on the number alone, whatever points the
    reason quotes: a float, or an integer that fits a double, brought into
    [0, 100]; 100 for plus infinity and 0 for minus infinity; [nan] for
    [nan], which is not clamped. An integer too large for a double leaves
    the submission as it was. *)
Theorem grade_submissions_clamped (state : GradingState.t)
    (subs : list Submissions.t) (questions rubric : option string)
    (i : nat) (s : Submissions.t) (text : string)
    (fields : gmap string json) (grade : json) (reason : string) :
  GradingState.submission_ids state = Some subs →
  GradingState.questions state = Some questions →
  GradingState.rubric state = Some rubric →
  subs !! i = Some s →
  has_text s text →
  chain_invoke questions rubric text = inr (AsDict fields) →
  fields !! "total_score" = Some grade →
  fields !! "reason" = Some (JString reason) →
  ∃ outs o,
    grade_submissions float_of_str chain_invoke state = Ok outs ∧
    length outs = length subs ∧
    outs !! i = Some o ∧
    scored_from s grade reason o.
Proof.
  intros Hs Hq Hr Hi [Ec Et] Ech Eg Ere.
  unfold grade_submissions. rewrite Hs, Hq, Hr. simpl.
  eexists _, _. split; [reflexivity |]. split; [apply length_map |].
  split; [rewrite list_lookup_fmap, Hi; reflexivity |].
  unfold scored_from, grade_one. rewrite Ec, Et. simpl.
  unfold grade_text. rewrite Ech. simpl. rewrite Eg, Ere.
  assert (Hd : debug_reason (JString reason) = inr tt)
    by (unfold debug_reason; destruct (json_truthy _); reflexivity).
  rewrite Hd.
  assert (Hre : reason_of (JString reason)
                = inr (if truthy reason then reason else "No reason provided"))
    by (unfold reason_of; simpl; destruct (truthy reason); reflexivity).
  rewrite Hre. unfold graded_as. rewrite Ec.
  repeat split.
  - intros x ->. simpl.
    destruct (clamp_grade_finite x) as (y & -> & _ & Hy). eauto.
  - intros n -> Hn. simpl. apply Z.ltb_lt in Hn. rewrite Hn.
    destruct (clamp_grade_finite (inject_Z n)) as (y & -> & _ & Hy). eauto.
  - intros n -> Hn. simpl. apply Z.ltb_ge in Hn. rewrite Hn. reflexivity.
  - intros ->. reflexivity.
  - intros ->. reflexivity.
  - intros ->. reflexivity.
Qed.

(** With a chain whose scores are never [nan], every grade built is a
    number: the submissions returned are submissions of the kind the
    plagiarism pass works on. *)
Lemma grade_one_number (questions rubric : option string)
    (s : Submissions.t) :
  nan_free float_of_str chain_invoke →
  ∃ m, grade_one float_of_str chain_invoke questions rubric s = kept m ∧
       graded_and_checked s m.
Proof.
  intros Hfree.
  assert (Hkept : ∃ m, kept s = kept m ∧ graded_and_checked s m).
  { exists s. split; [reflexivity |]. split; [repeat split | left; reflexivity]. }
  unfold grade_one.
  destruct (Submissions.file_content s) as [text|] eqn:Ec; [| exact Hkept].
  destruct (truthy text) eqn:Et; [| exact Hkept]. simpl.
  destruct (grade_text float_of_str chain_invoke questions rubric text)
    as [e|g] eqn:Eg; [exact Hkept |].
  pose proof (grade_text_stored _ _ _ _ Eg) as [_ Hreason].
  destruct (grade_text_inr _ _ _ _ Eg)
    as (result & grade & reason_text & grade_float & Ech & Ef & Egf & _ & Escore).
  destruct (clamp_grade_cases grade_float) as [[_ ->] | (y & Ey & Hy)].
  { exfalso. exact (Hfree _ _ _ _ _ _ Ech Ef Egf). }
  exists (Submissions.mk (Submissions.submission_id s)
            (Submissions.file_url s) (Some text)
            (Submissions.plagerism_score s)
            (Some (RubricGrade.mk y (LlmGrade.reason g))) None None).
  split.
  - unfold kept. simpl. destruct g as [score reason]. simpl in *.
    rewrite Escore, Ey. reflexivity.
  - split; [repeat split; simpl; auto |]. right.
    eexists. split; [reflexivity |]. split; assumption.
Qed.

Lemma grade_submissions_numbers (state : GradingState.t)
    (subs : list Submissions.t) :
  nan_free float_of_str chain_invoke →
  GradingState.submission_ids state = Some subs →
  ∃ graded,
    grade_submissions float_of_str chain_invoke state = Ok (map kept graded) ∧
    Forall2 graded_and_checked subs graded.
Proof.
  intros Hfree Hs.
  destruct (grade_submissions_cases state subs Hs)
    as [[_ E] | (questions & rubric & _ & _ & E)]; rewrite E.
  - exists subs. split; [reflexivity |].
    apply Forall_Forall2_diag, Forall_forall. intros s _.
    split; [repeat split | left; reflexivity].
  - clear E Hs. induction subs as [|s rest (graded & E & HF)].
    + exists []. split; [reflexivity | constructor].
    + destruct (grade_one_number questions rubric s Hfree) as (m & Em & Hm).
      exists (m :: graded). simpl. injection E as E. rewrite E, Em.
      split; [reflexivity | constructor; assumption].
Qed.

End GradingFacts.

(** ** Downloading and fetching *)

Section DownloadFacts.

Variable suffix : string → string.
Variable http : string → outcome http_response.
Variable pdf_text decode_utf8 : string → option string.

(** X12. [download_and_parse_files] returns one submission per input, in
    order, with the same id, URL, plagiarism score and grade; a submission
    whose URL is missing or whose download fails is returned as it is. *)
Theorem download_and_parse_files_frame (state : GradingState.t)
    (subs : list Submissions.t) :
  GradingState.submission_ids state = Some subs →
  ∃ outs,
    download_and_parse_files suffix http pdf_text decode_utf8 state = Ok outs ∧
    Forall2 (λ s o,
      parsed_from s o ∧
      (Submissions.file_url s = None → o = s) ∧
      (∀ file_url e,
          Submissions.file_url s = Some file_url →
          http file_url = Raised e → o = s)) subs outs.
Proof.
  intros Hs. unfold download_and_parse_files. rewrite Hs. simpl.
  eexists. split; [reflexivity |].
  apply Forall2_map_self. intros s. unfold download_one.
  destruct (Submissions.file_url s) as [file_url|] eqn:Eu.
  - destruct (http file_url) as [response|e] eqn:Eh.
    + destruct (parse_file pdf_text decode_utf8 _ response) as [text|].
      * split; [| split; [discriminate |]].
        -- right. simpl. rewrite Eu. eauto 10.
        -- intros u e [= <-]. rewrite Eh. discriminate.
      * split; [left; reflexivity | split; reflexivity].
    + split; [left; reflexivity | split; reflexivity].
  - split; [left; reflexivity | split; reflexivity].
Qed.

End DownloadFacts.

(** X13. [fetch_submission_ids] never raises: without a client, without
    the key [assignment_id] or when the query raises it returns the empty
    list, and otherwise one new submission per row, in order, with the id
    and the URL of the row and nothing else. The query is filtered by the
    students only when their list is present and not empty. *)
Theorem fetch_submission_ids_fresh (client : option submissions_query)
    (state : GradingState.t) :
  (client = None ∨ GradingState.assignment_id state = None →
   fetch_submission_ids client state = []) ∧
  (∀ query assignment_id,
      client = Some query →
      GradingState.assignment_id state = Some assignment_id →
      ∃ filter,
        (filter = None ↔
         GradingState.student_ids state = None
         ∨ GradingState.student_ids state = Some None
         ∨ GradingState.student_ids state = Some (Some [])) ∧
        (∀ students, filter = Some students →
                     GradingState.student_ids state = Some (Some students)) ∧
        match query assignment_id filter with
        | Raised _ => fetch_submission_ids client state = []
        | Ok data =>
            Forall2 fresh_from data (fetch_submission_ids client state)
        end).
Proof.
  split.
  - intros [-> | H]; [reflexivity |].
    unfold fetch_submission_ids. rewrite H. destruct client; reflexivity.
  - intros query assignment_id -> Hid. unfold fetch_submission_ids.
    rewrite Hid.
    assert (Hrows : ∀ filter,
      match query assignment_id filter with
      | Raised _ =>
          match query assignment_id filter with
          | Raised _ => []
          | Ok data => map new_submission data
          end = []
      | Ok data =>
          Forall2 fresh_from data
            match query assignment_id filter with
            | Raised _ => []
            | Ok data => map new_submission data
            end
      end).
    { intros filter. destruct (query assignment_id filter); [| reflexivity].
      apply Forall2_map_self. intros row. repeat split. }
    destruct (GradingState.student_ids state) as [[[|s rest]|]|].
    + exists None. split; [split; auto |].
      split; [discriminate | apply Hrows].
    + exists (Some (s :: rest)). split.
      * split; [discriminate | intros [H | [H | H]]; discriminate].
      * split; [intros students [= <-]; reflexivity | apply Hrows].
    + exists None. split; [split; auto |].
      split; [discriminate | apply Hrows].
    + exists None. split; [split; auto |].
      split; [discriminate | apply Hrows].
Qed.

(** ** Saving the grades *)

Section SavingFacts.

Variable str_float : float → string.
Variable update_submission_grade : grade_update → bool.

Lemma save_grades_counts (subs : list Submissions.t)
    (graded failed : nat) (sent : list grade_update) :
  let '(g, f, out) :=
    save_grades str_float update_submission_grade subs graded failed sent in
  (g + f = graded + failed + length subs)%nat ∧
  (graded ≤ g)%nat ∧
  (g + length sent ≤ graded + length out)%nat ∧
  out = (sent ++ map (λ s, prepare_update str_float s
                             (default (RubricGrade.mk 0 "")
                                (Submissions.total_score s)))
                   (graded_ones subs))%list.
Proof.
  revert graded failed sent. unfold graded_ones.
  induction subs as [|s rest IH]; intros graded failed sent; simpl.
  - rewrite app_nil_r. repeat split; lia.
  - rewrite filter_cons.
    destruct (Submissions.total_score s) as [g0|] eqn:Eg.
    + rewrite decide_True by (simpl; rewrite ?Eg; eauto).
      simpl. rewrite ?Eg. simpl.
      destruct (update_submission_grade _).
      * specialize (IH (S graded) failed
                      (sent ++ [prepare_update str_float s g0])%list).
        destruct (save_grades _ _ rest _ _ _) as [[g f] out].
        destruct IH as (H1 & H2 & H3 & ->).
        rewrite <- app_assoc in *. rewrite !length_app in *. simpl in *.
        repeat split; lia || reflexivity.
      * specialize (IH graded (S failed)
                      (sent ++ [prepare_update str_float s g0])%list).
        destruct (save_grades _ _ rest _ _ _) as [[g f] out].
        destruct IH as (H1 & H2 & H3 & ->).
        rewrite <- app_assoc in *. rewrite !length_app in *. simpl in *.
        repeat split; lia || reflexivity.
    + rewrite decide_False
        by (simpl; rewrite ?Eg; intros [? ?]; discriminate).
      specialize (IH graded (S failed) sent).
      destruct (save_grades _ _ rest _ _ _) as [[g f] out].
      destruct IH as (H1 & H2 & H3 & ->).
      repeat split; lia || reflexivity.
Qed.

(** X14. The loop that saves the grades counts every submission once, as
    graded or as failed; it sends one update per submission that carries a
    grade, in order, and none for the others, and it counts as graded no
    more submissions than it sent updates. *)
Theorem save_grades_accounts (subs : list Submissions.t) :
  let '(graded_count, failed_count, sent) :=
    save_grades str_float update_submission_grade subs 0 0 [] in
  (graded_count + failed_count = length subs)%nat ∧
  (graded_count ≤ length sent)%nat ∧
  length sent = length (graded_ones subs) ∧
  map update_id sent = map Submissions.submission_id (graded_ones subs).
Proof.
  pose proof (save_grades_counts subs 0 0 []) as H.
  destruct (save_grades _ _ subs _ _ _) as [[g f] out].
  destruct H as (H1 & _ & H3 & ->). simpl in *.
  rewrite length_map in *. repeat split; try lia.
  rewrite map_map. reflexivity.
Qed.

Lemma prepare_update_grade (s : Submissions.t) (g : RubricGrade.t) :
  let u := prepare_update str_float s g in
  (update_grade u = 0%Q ∨ update_grade u = RubricGrade.total_score g) ∧
  update_reason u ≠ "" ∧
  (∀ p, update_plagiarism u = Some p → (PLAGIARISM_THRESHOLD < p)%Q →
        (update_grade u == 0)%Q).
Proof.
  unfold prepare_update. simpl.
  set (reason := if truthy (RubricGrade.reason g) then RubricGrade.reason g
                 else "No reason provided").
  assert (Hreason : reason ≠ "").
  { unfold reason. destruct (truthy _) eqn:E;
      [apply truthy_nonempty, E | discriminate]. }
  destruct (Submissions.plagerism_score s) as [p|].
  - destruct (gt p PLAGIARISM_THRESHOLD) eqn:Ep; simpl.
    + destruct (Qeq_bool (RubricGrade.total_score g) 0) eqn:E0; simpl.
      * split; [auto |]. split; [exact Hreason |].
        intros p' _ _. apply Qeq_bool_iff, E0.
      * split; [auto |]. split; [discriminate |].
        intros p' _ _. reflexivity.
    + split; [auto |]. split; [exact Hreason |].
      intros p' [= <-] H. apply gt_spec in H. congruence.
  - split; [auto |]. split; [exact Hreason |]. intros p' H. discriminate H.
Qed.

(** X15. Every update the loop sends carries either the grade of the
    submission or 0.0, never an empty reason, and 0.0 whenever the
    plagiarism score it carries exceeds the threshold 40.0. *)
Theorem save_grades_threshold (subs : list Submissions.t) :
  Forall (λ u,
    update_reason u ≠ "" ∧
    (∀ p, update_plagiarism u = Some p → (PLAGIARISM_THRESHOLD < p)%Q →
          (update_grade u == 0)%Q) ∧
    ∃ s g, s ∈ subs ∧ Submissions.total_score s = Some g ∧
           update_id u = Submissions.submission_id s ∧
           update_plagiarism u = Submissions.plagerism_score s ∧
           (update_grade u = 0%Q ∨ update_grade u = RubricGrade.total_score g))
    (save_grades str_float update_submission_grade subs 0 0 []).2.
Proof.
  pose proof (save_grades_counts subs 0 0 []) as H.
  destruct (save_grades _ _ subs _ _ _) as [[g f] out].
  destruct H as (_ & _ & _ & ->). simpl.
  apply Forall_forall. intros u (s & -> & Hs)%list_elem_of_fmap.
  unfold graded_ones in Hs. apply list_elem_of_filter in Hs as [[g0 Eg] Hs].
  rewrite Eg. simpl.
  destruct (prepare_update_grade s g0) as (H1 & H2 & H3).
  split; [exact H2 |]. split; [exact H3 |].
  exists s, g0. repeat split; auto.
Qed.

End SavingFacts.

(** ** The nodes one after the other *)

Section Pipeline.

Variable str_float : float → string.
Variable web_check academic_check : string → nat → outcome (list SourceMatch.t).

(** A relation kept by both branches of the pass is kept by
    [check_plagiarism] on every path. *)
Lemma check_plagiarism_relates (R : Submissions.t → Submissions.t → Prop)
    (st : storage) (state : AssignmentGrade.t) (subs : list Submissions.t)
    (log : list event) :
  (∀ s, R s s) →
  (∀ s, R s (without_plagiarism s)) →
  (∀ contents s,
      R s (result_of str_float web_check academic_check contents s)) →
  AssignmentGrade.submission_ids state = Some subs →
  ∃ outs log',
    check_plagiarism_with str_float web_check academic_check st state log
    = (Ok outs, log') ∧
    Forall2 R subs outs.
Proof.
  intros Hrefl Hzero Hres Hsubs.
  assert (Hsame : Forall2 R subs subs)
    by (apply Forall_Forall2_diag, Forall_forall; intros; apply Hrefl).
  unfold check_plagiarism_with, try_except, check_plagiarism_body.
  rewrite Hsubs. unfold mbind, M_bind, lift, mret, M_ret. simpl.
  destruct (AssignmentGrade.assignment_id state) as [assignment_id|]; simpl;
    [| eauto].
  destruct (supabase st) as [select_submissions|]; [| eauto].
  destruct (select_submissions assignment_id) as [[|row rows]|];
    [simpl; eauto | | simpl; eauto].
  destruct (evaluate_returns str_float web_check academic_check
              (download_all st (row :: rows) []) subs log)
    as (outs & log' & E & [-> | ->]);
    cbv beta iota; rewrite E; eexists _, _; (split; [reflexivity |]);
    apply Forall2_map_self; auto.
Qed.

Lemma override_reason_nonempty (p : float) (original : string) :
  override_reason str_float p original ≠ "".
Proof. discriminate. Qed.

Lemma result_of_regraded (contents : list (string * string))
    (s : Submissions.t) :
  regraded s (result_of str_float web_check academic_check contents s).
Proof.
  split; [apply result_of_identity |]. unfold result_of.
  destruct (Submissions.file_content s) as [text|]; [| left; reflexivity].
  destruct (truthy text); [| left; reflexivity].
  unfold evaluated. simpl.
  set (p := score_of _ _ _).
  destruct (Qlt_le_dec PLAGIARISM_THRESHOLD p) as [H | H].
  - right. rewrite grade_over by exact H.
    eexists. split; [reflexivity | apply override_reason_nonempty].
  - left. apply grade_under, H.
Qed.

(** X16. With a chain whose scores are never [nan], grading followed by
    the plagiarism check returns one submission per input, in order, with
    the same id, URL and content, and a grade that is either the one the
    input had or a grade between 0 and 100 with a non-empty reason. *)
Theorem grade_then_check_valid (float_of_str : string → option pyfloat)
    (chain_invoke :
       option string → option string → string → grading_error + llm_result)
    (st : storage) (state : GradingState.t) (subs : list Submissions.t) :
  nan_free float_of_str chain_invoke →
  GradingState.submission_ids state = Some subs →
  ∃ graded outs log',
    grade_submissions float_of_str chain_invoke state
    = Ok (map kept graded) ∧
    check_plagiarism_with str_float web_check academic_check st
      (plagiarism_view (with_submissions state graded)) []
    = (Ok outs, log') ∧
    Forall2 graded_and_checked subs outs.
Proof.
  intros Hfree Hs.
  destruct (grade_submissions_numbers float_of_str chain_invoke state subs
              Hfree Hs) as (graded & Eg & Hgraded).
  destruct (check_plagiarism_relates regraded st
              (plagiarism_view (with_submissions state graded)) graded [])
    as (outs & log' & Ec & Hchecked).
  - intros s. split; [apply same_identity_refl | left; reflexivity].
  - intros s. split; [apply without_plagiarism_identity | left; reflexivity].
  - apply result_of_regraded.
  - reflexivity.
  - exists graded, outs, log'. split; [exact Eg |]. split; [exact Ec |].
    eapply Forall2_trans; [| exact Hgraded | exact Hchecked].
    intros s m o [(Hid' & Hurl' & Hcontent') Hsm]
      [(Hid & Hurl & Hcontent) Hmo].
    split; [repeat split; congruence |].
    destruct Hmo as [E | (reason & E & Hr)].
    + destruct Hsm as [E' | (g & E' & Hv)]; [left; congruence |].
      right. exists g. split; [congruence | exact Hv].
    + right. eexists. split; [exact E |].
      split; [split; discriminate | exact Hr].
Qed.

Lemma without_plagiarism_saved (s : Submissions.t) :
  saved_as_returned str_float (without_plagiarism s).
Proof.
  intros g Hg. unfold prepare_update. simpl. repeat split.
Qed.

(** X17. The second check of the threshold, made when the grades are
    saved, changes nothing on what the pass returns: for every returned
    submission with a grade, the update sent carries that grade, its reason
    ("No reason provided" when it is empty), the plagiarism score and the
    sources of the submission. *)
Theorem pass_then_save (contents : list (string * string))
    (subs : list Submissions.t) (log : list event) :
  ∃ outs log',
    evaluate str_float web_check academic_check contents subs log
    = (Ok outs, log') ∧
    Forall (saved_as_returned str_float) outs.
Proof.
  destruct (evaluate_returns str_float web_check academic_check contents subs
              log) as (outs & log' & E & [-> | ->]);
    eexists _, log'; (split; [exact E |]); apply Forall_forall;
    intros o (s & -> & _)%list_elem_of_fmap;
    [apply without_plagiarism_saved |].
  unfold result_of.
  destruct (Submissions.file_content s) as [text|];
    [| apply without_plagiarism_saved].
  destruct (truthy text); [| apply without_plagiarism_saved].
  intros g Hg. unfold evaluated in *. simpl in Hg.
  set (p := score_of _ _ _) in *.
  unfold prepare_update. simpl. fold p.
  assert (Hnot : gt p PLAGIARISM_THRESHOLD
                 && negb (Qeq_bool (RubricGrade.total_score g) 0) = false).
  { destruct (Qlt_le_dec PLAGIARISM_THRESHOLD p) as [H | H].
    - rewrite grade_over in Hg by exact H. injection Hg as <-. simpl.
      apply andb_false_r.
    - apply gt_false in H. rewrite H. reflexivity. }
  rewrite Hnot. repeat split.
Qed.

End Pipeline.

(** ** Instances of the further properties *)

Lemma peer_match_detected_witness :
  ∃ outs log' o p reason,
    evaluate str_decimal no_sources no_sources sample_contents
      sample_submissions [] = (Ok outs, log') ∧
    outs !! 0%nat = Some o ∧
    Submissions.plagerism_score o = Some p ∧
    (round2 (jaccard text_A text_A * 100) <= p)%Q ∧
    Submissions.total_score o = Some (RubricGrade.mk 0 reason).
Proof.
  apply (peer_match_detected str_decimal no_sources no_sources
           sample_contents sample_submissions [] 0 (graded "A" text_A 90)
           text_A "B" text_A).
  - simpl. lia.
  - reflexivity.
  - split; reflexivity.
  - right. left.
  - discriminate.
  - vm_compute. reflexivity.
Defined.

Lemma override_has_evidence_witness :
  ∃ text,
    has_text (graded "A" text_A 90) text ∧
    ((∃ other_id other_text,
        (other_id, other_text) ∈ sample_contents ∧
        other_id ≠ Submissions.submission_id (graded "A" text_A 90) ∧
        (10000 # 100)%Q = round2 (jaccard text other_text * 100)%Q) ∨
     (∃ web source,
        Submissions.web_sources
          (default (graded "A" text_A 90) (sample_outs !! 0%nat)) = Some web ∧
        source ∈ web ∧ (10000 # 100)%Q = SourceMatch.similarity source) ∨
     (∃ academic source,
        Submissions.academic_sources
          (default (graded "A" text_A 90) (sample_outs !! 0%nat))
        = Some academic ∧
        source ∈ academic ∧ (10000 # 100)%Q = SourceMatch.similarity source)).
Proof.
  apply (override_has_evidence str_decimal no_sources no_sources
           sample_contents sample_submissions sample_outs [] sample_log 0
           (graded "A" text_A 90)
           (default (graded "A" text_A 90) (sample_outs !! 0%nat))
           (10000 # 100)%Q).
  - vm_compute. reflexivity.
  - reflexivity.
  - reflexivity.
  - reflexivity.
  - reflexivity.
Defined.

Lemma grade_submissions_valid_witness :
  (∃ outs,
     grade_submissions float_of_nan moody_chain moody_state = Ok outs ∧
     Forall2 graded_from moody_submissions outs ∧
     (GradingState.questions moody_state = None
      ∨ GradingState.rubric moody_state = None →
      outs = map kept moody_submissions)) ∧
  (∃ outs,
     grade_submissions float_of_nan moody_chain state_without_rubric
     = Ok outs ∧
     Forall2 graded_from moody_submissions outs ∧
     (GradingState.questions state_without_rubric = None
      ∨ GradingState.rubric state_without_rubric = None →
      outs = map kept moody_submissions)).
Proof.
  split.
  - apply (grade_submissions_valid float_of_nan moody_chain moody_state
             moody_submissions).
    reflexivity.
  - apply (grade_submissions_valid float_of_nan moody_chain
             state_without_rubric moody_submissions).
    reflexivity.
Defined.

Lemma grade_submissions_isolated_witness :
  returned_as_it_is 0 (parsed "S0" None) ∧
  returned_as_it_is 1 (parsed "S1" (Some "")) ∧
  returned_as_it_is 2 (parsed "S2" (Some "timeout")) ∧
  returned_as_it_is 3 (parsed "S3" (Some "prose")) ∧
  returned_as_it_is 4 (parsed "S4" (Some "no reason")) ∧
  returned_as_it_is 5 (parsed "S5" (Some "no score")) ∧
  returned_as_it_is 6 (parsed "S6" (Some "null score")) ∧
  returned_as_it_is 7 (parsed "S7" (Some "letter score")) ∧
  returned_as_it_is 8 (parsed "S8" (Some "huge score")).
Proof.
  repeat split;
    match goal with
    | |- returned_as_it_is ?i ?s =>
        apply (grade_submissions_isolated float_of_nan moody_chain
                 moody_state moody_submissions
                 (Some "Assignment Questions:") (Some "Total Points: 30")
                 i s); try reflexivity
    end.
  - left. reflexivity.
  - left. reflexivity.
  - right. exists "timeout". split; [split; reflexivity |].
    left. exists ChainError. reflexivity.
  - right. exists "prose". split; [split; reflexivity |].
    right. left. reflexivity.
  - right. exists "no reason". split; [split; reflexivity |].
    right. right. eexists. split; [reflexivity |].
    left. vm_compute. reflexivity.
  - right. exists "no score". split; [split; reflexivity |].
    right. right. eexists. split; [reflexivity |].
    right. left. vm_compute. reflexivity.
  - right. exists "null score". split; [split; reflexivity |].
    right. right. eexists. split; [reflexivity |].
    right. right. left. vm_compute. reflexivity.
  - right. exists "letter score". split; [split; reflexivity |].
    right. right. eexists. split; [reflexivity |].
    right. right. right. right. left. exists "A+".
    split; vm_compute; reflexivity.
  - right. exists "huge score". split; [split; reflexivity |].
    right. right. eexists. split; [reflexivity |].
    right. right. right. right. right. exists (2 ^ 1024)%Z.
    split; [vm_compute; reflexivity | vm_compute; discriminate].
Defined.

Lemma grade_submissions_clamped_witness :
  returned_with 8 (parsed "S8" (Some "huge score")) (JInt (2 ^ 1024)) "Fine" ∧
  returned_with 9 (parsed "S9" (Some "nan score")) (JFloat NaN) "Fine" ∧
  returned_with 10 (parsed "S10" (Some "infinite score")) (JFloat PosInf) "" ∧
  returned_with 11 (parsed "S11" (Some text_A)) (JInt 120) "Good work".
Proof.
  repeat split;
    match goal with
    | |- returned_with ?i ?s ?grade ?reason =>
        match s with
        | parsed _ (Some ?text) =>
            eapply (grade_submissions_clamped float_of_nan moody_chain
                      moody_state moody_submissions
                      (Some "Assignment Questions:")
                      (Some "Total Points: 30") i s text _ grade reason)
        end
    end;
    try reflexivity; try (split; reflexivity); vm_compute; reflexivity.
Defined.

(** The sample in full: nine submissions come back as they were, the score
    [nan] is stored as it is, plus infinity and 120 are brought to 100. *)
Example grade_submissions_sample :
  grade_submissions float_of_nan moody_chain moody_state
  = Ok [kept (parsed "S0" None);
        kept (parsed "S1" (Some ""));
        kept (parsed "S2" (Some "timeout"));
        kept (parsed "S3" (Some "prose"));
        kept (parsed "S4" (Some "no reason"));
        kept (parsed "S5" (Some "no score"));
        kept (parsed "S6" (Some "null score"));
        kept (parsed "S7" (Some "letter score"));
        kept (parsed "S8" (Some "huge score"));
        Graded.mk "S9" (Some "https://files/S9") (Some "nan score") None
          (Some (LlmGrade.mk NaN "Fine")) None None;
        Graded.mk "S10" (Some "https://files/S10") (Some "infinite score")
          None (Some (LlmGrade.mk (Finite 100) "No reason provided"))
          None None;
        Graded.mk "S11" (Some "https://files/S11") (Some text_A) None
          (Some (LlmGrade.mk (Finite 100) "Good work")) None None].
Proof. vm_compute. reflexivity. Qed.

Lemma download_and_parse_files_frame_witness :
  ∃ outs,
    download_and_parse_files (λ _, ".py") plain_http (λ _, None) Some
      sample_state = Ok outs ∧
    Forall2 (λ s o,
      parsed_from s o ∧
      (Submissions.file_url s = None → o = s) ∧
      (∀ file_url e,
          Submissions.file_url s = Some file_url →
          plain_http file_url = Raised e → o = s)) sample_submissions outs.
Proof.
  apply (download_and_parse_files_frame (λ _, ".py") plain_http (λ _, None)
           Some sample_state sample_submissions).
  reflexivity.
Defined.

Lemma grade_then_check_valid_witness :
  ∃ graded outs log',
    grade_submissions no_number generous_chain sample_state
    = Ok (map kept graded) ∧
    check_plagiarism_with str_decimal no_sources no_sources sample_storage
      (plagiarism_view (with_submissions sample_state graded)) []
    = (Ok outs, log') ∧
    Forall2 graded_and_checked sample_submissions outs.
Proof.
  apply (grade_then_check_valid str_decimal no_sources no_sources
           no_number generous_chain sample_storage sample_state
           sample_submissions).
  - intros questions rubric text result grade reason_text [= <-] Hfields.
    vm_compute in Hfields. injection Hfields as <- <-.
    vm_compute. discriminate.
  - reflexivity.
Defined.
